(** * Snapgram: the remote service facade, the session store and the
      optimistic post controls, embedded and verified

    The development follows the TypeScript sources:
    - [lib/appwrite/backend] (the facade over the Appwrite SDK),
    - [context/AuthProvider.tsx] (the session state store),
    - [components/shared/PostStats.tsx] (like and save toggles),
    - [App.tsx], [layouts/auth/AuthLayout.tsx], [layouts/root/RootLayout.tsx]
      (the routing shell).

    JavaScript values are a small inductive type with the language's
    truthiness; asynchronous functions are computations in an
    exception-and-trace monad in which [await] is sequencing; the Appwrite
    SDK is an arbitrary oracle that answers each call from the history of
    the run so far. *)

From Stdlib Require Import List String Ascii ZArith Bool Lia DecimalString.
Import ListNotations.
Open Scope string_scope.

Set Warnings "-register-all".

(* ================================================================== *)
(** ** JavaScript values *)
(* ================================================================== *)

Module JS.

Inductive value : Type :=
| VUndef
| VNull
| VBool (b : bool)
| VNum (z : Z)                       (* the Number nearest to z *)
| VStr (s : string)
| VArr (items : list value)
| VObj (fields : list (string * value))
| VFunc (name : string).             (* a function object, e.g. [Error] *)

(** [!v] is [negb (truthy v)]. *)
Definition truthy (v : value) : bool :=
  match v with
  | VUndef | VNull => false
  | VBool b => b
  | VNum z => negb (Z.eqb z 0)
  | VStr s => negb (String.eqb s "")
  | VArr _ | VObj _ | VFunc _ => true
  end.

Definition nullish (v : value) : bool :=
  match v with
  | VUndef | VNull => true
  | _ => false
  end.

Fixpoint assoc (k : string) (fields : list (string * value)) : value :=
  match fields with
  | [] => VUndef
  | (k', v) :: rest => if String.eqb k k' then v else assoc k rest
  end.

(** [v.k] for a value that is neither [undefined] nor [null], for the
    property names the program reads ([$id], [name], [email], [username],
    [imageUrl], [bio], [documents]). *)
Definition prop (v : value) (k : string) : value :=
  match v with
  | VObj fields => assoc k fields
  | VFunc n => if String.eqb k "name" then VStr n else VUndef
  | _ => VUndef
  end.

(** [new Error(msg)] and the [TypeError] of a property read on a nullish
    value. *)
Definition Error (msg : string) : value :=
  VObj [("name", VStr "Error"); ("message", VStr msg)].

Definition TypeError (msg : string) : value :=
  VObj [("name", VStr "TypeError"); ("message", VStr msg)].

(** The [Error] constructor itself, which [throw Error;] throws. *)
Definition ErrorCtor : value := VFunc "Error".

Definition of_option_string (o : option string) : value :=
  match o with
  | Some s => VStr s
  | None => VUndef
  end.

(** *** Numbers as strings

    [VNum z] stands for the Number (a double) nearest to the integer [z],
    ties to the even significand, as the literal [z] is read; up to 2^53
    that is [z] itself. *)

Definition digits (a : Z) : string := NilZero.string_of_int (Z.to_int a).

(** The double nearest to the non-negative integer [a], as an integer;
    2^1024 or more stands for Infinity. *)
Definition to_double (a : Z) : Z :=
  if Z.ltb a (2 ^ 53) then a
  else
    let shift := (Z.log2 a - 52)%Z in
    let q := Z.shiftr a shift in
    let r := (a - Z.shiftl q shift)%Z in
    let half := Z.shiftl 1 (shift - 1) in
    let q' := if Z.ltb half r || (Z.eqb r half && Z.odd q)
              then (q + 1)%Z else q in
    Z.shiftl q' shift.

(** The integer with the fewest significant digits that still reads back
    as the double [x], the nearest to [x] among those; [p] is the number
    of trailing zeros tried first. *)
Fixpoint shortest (x : Z) (p : nat) : Z :=
  match p with
  | O => x
  | S p' =>
      let unit := (10 ^ Z.of_nat p)%Z in
      let lo := (x / unit * unit)%Z in
      let hi := (lo + unit)%Z in
      if Z.eqb (to_double lo) x
      then if Z.eqb (to_double hi) x && Z.ltb (hi - x) (x - lo)
           then hi else lo
      else if Z.eqb (to_double hi) x then hi
           else shortest x p'
  end.

Fixpoint strip_zeros (s : string) : string :=
  match s with
  | EmptyString => EmptyString
  | String c rest =>
      match strip_zeros rest with
      | EmptyString => if Ascii.eqb c "0" then EmptyString
                       else String c EmptyString
      | rest' => String c rest'
      end
  end.

(** [d.ddde+n] for an integer of more than 21 digits. *)
Definition exponent_form (v : Z) : string :=
  let n := Z.of_nat (String.length (digits v)) in
  match strip_zeros (digits v) with
  | EmptyString => "0"
  | String d EmptyString => String d ("e+" ++ digits (n - 1))
  | String d rest => String d ("." ++ rest ++ "e+" ++ digits (n - 1))
  end.

(** [Number.prototype.toString] on the Number [VNum z] stands for: the
    shortest digits that read back as the same double, written out in
    full up to 21 digits and with an exponent beyond. *)
Definition Number_toString (z : Z) : string :=
  if Z.eqb z 0 then "0"
  else
    let sign := if Z.ltb z 0 then "-" else "" in
    let x := to_double (Z.abs z) in
    if Z.leb (2 ^ 1024) x then sign ++ "Infinity"
    else
      let v := shortest x (String.length (digits x) - 1) in
      if Z.ltb v (10 ^ 21) then sign ++ digits v
      else sign ++ exponent_form v.

(** [v.toString()] on a non-nullish value. *)
Fixpoint toString (v : value) : string :=
  match v with
  | VUndef => "undefined"
  | VNull => "null"
  | VBool true => "true"
  | VBool false => "false"
  | VNum z => Number_toString z
  | VStr s => s
  | VArr items =>
      (fix join (l : list value) : string :=
         match l with
         | [] => ""
         | x :: rest =>
             (match x with
              | VUndef | VNull => ""
              | _ => toString x
              end) ++
             (match rest with
              | [] => ""
              | _ => "," ++ join rest
              end)
         end) items
  | VObj _ => "[object Object]"
  | VFunc n => "function " ++ n ++ "() { [native code] }"
  end.

Definition string_is_truthy (s : string) : bool := negb (String.eqb s "").

Definition option_string_truthy (o : option string) : bool :=
  match o with
  | Some s => string_is_truthy s
  | None => false
  end.

(** [s.replace(/ /g, "")] *)
Fixpoint remove_spaces (s : string) : string :=
  match s with
  | EmptyString => EmptyString
  | String c rest =>
      if Ascii.eqb c " "%char then remove_spaces rest
      else String c (remove_spaces rest)
  end.

(** [s.split(",")]: always at least one piece. *)
Fixpoint split_comma (s : string) : list string :=
  match s with
  | EmptyString => [EmptyString]
  | String c rest =>
      if Ascii.eqb c ","%char then EmptyString :: split_comma rest
      else match split_comma rest with
           | [] => [String c EmptyString]
           | piece :: pieces => String c piece :: pieces
           end
  end.

End JS.
Import JS.

(* ================================================================== *)
(** ** The Appwrite SDK surface and the run trace *)
(* ================================================================== *)

(** [Query.*] terms, as the facade builds them. *)
Inductive query : Type :=
| Query_equal (attribute : string) (v : value)
| Query_search (attribute : string) (v : value)
| Query_orderDesc (attribute : string)
| Query_limit (n : Z)
| Query_cursorAfter (documentId : string).

(** One constructor per SDK method the facade calls. *)
Inductive call : Type :=
| account_create (userId email password name : value)
| account_createEmailPasswordSession (email password : value)
| account_get
| account_deleteSession (sessionId : value)
| avatars_getInitials (name : value)
| databases_createDocument (db coll docId data : value)
| databases_listDocuments (db coll : value) (queries : list query)
| databases_getDocument (db coll docId : value)
| databases_updateDocument (db coll docId data : value)
| databases_deleteDocument (db coll docId : value)
| storage_createFile (bucket fileId file : value)
| storage_getFilePreview (bucket fileId : value) (width height : Z)
| storage_deleteFile (bucket fileId : value).

Inductive outcome (A : Type) : Type :=
| Ret (a : A)
| Exn (e : value).
Arguments Ret {A} a.
Arguments Exn {A} e.

(** What an SDK method does when called: it throws on the spot, or it
    hands back a promise that is fulfilled or rejected.  For the two
    synchronous methods ([avatars.getInitials], [storage.getFilePreview])
    [Gave (Ret v)] is the returned value and both other replies are a
    throw. *)
Inductive reply : Type :=
| Threw (e : value)
| Gave (p : outcome value).

(** The session store's user object (AuthProvider.tsx, INITIAL_USER). *)
Record IUser : Type := mkIUser {
  id : value;
  name : value;
  username : value;
  email : value;
  imageUrl : value;
  bio : value
}.

Inductive event : Type :=
| ERemote (c : call) (r : reply)
| EConsole (site : string) (v : value)     (* console.log(v) in [site] *)
| ESetUser (u : IUser)
| ESetIsAuthenticated (b : bool)
| ESetIsLoading (b : bool)
| ENavigate (path : string).

(** The environment configuration of [./config]. *)
Record Config : Type := mkConfig {
  databasesId : value;
  storageId : value;
  usersCollectionId : value;
  postsCollectionId : value;
  savesCollectionId : value
}.

(* ================================================================== *)
(** ** Asynchronous computations *)
(* ================================================================== *)

(** A computation reads the history of the run and yields an outcome with
    the events it added, oldest first. *)
Definition M (A : Type) : Type := list event -> outcome A * list event.

Definition ret {A} (a : A) : M A := fun _ => (Ret a, []).

Definition throw {A} (e : value) : M A := fun _ => (Exn e, []).

Definition bind {A B} (m : M A) (k : A -> M B) : M B :=
  fun h =>
    match m h with
    | (Ret a, evs) =>
        match k a (h ++ evs)%list with
        | (r, evs') => (r, (evs ++ evs')%list)
        end
    | (Exn e, evs) => (Exn e, evs)
    end.

Definition emit (ev : event) : M unit := fun _ => (Ret tt, [ev]).

(** [try { body } catch (error) { handler error }] *)
Definition try_catch {A} (body : M A) (handler : value -> M A) : M A :=
  fun h =>
    match body h with
    | (Ret a, evs) => (Ret a, evs)
    | (Exn e, evs) =>
        match handler e (h ++ evs)%list with
        | (r, evs') => (r, (evs ++ evs')%list)
        end
    end.

(** [try { body } finally { fin }], where [fin] does not itself return. *)
Definition try_finally {A} (body : M A) (fin : M unit) : M A :=
  fun h =>
    match body h with
    | (r, evs) =>
        match fin (h ++ evs)%list with
        | (Ret _, evs') => (r, (evs ++ evs')%list)
        | (Exn e, evs') => (Exn e, (evs ++ evs')%list)
        end
    end.

(** A promise is an object: [!p] is false whatever it settles to. *)
Definition promise_truthy (p : outcome value) : bool := true.

(** [await p] on a settled promise. *)
Definition await (p : outcome value) : M value :=
  match p with
  | Ret v => ret v
  | Exn e => throw e
  end.

Declare Scope async_scope.
Delimit Scope async_scope with async.
Notation "x <- m ;; k" := (bind m (fun x => k))
  (at level 61, m at next level, right associativity) : async_scope.
Notation "m ;; k" := (bind m (fun _ => k))
  (at level 61, right associativity) : async_scope.
Open Scope async_scope.

Definition console_log (site : string) (v : value) : M unit :=
  emit (EConsole site v).

(** [x.k], which throws on [undefined] and [null]. *)
Definition get_prop (v : value) (k : string) : M value :=
  if nullish v then throw (TypeError "Cannot read properties")
  else ret (prop v k).

(** [x[0]] *)
Definition index0 (v : value) : M value :=
  match v with
  | VUndef | VNull => throw (TypeError "Cannot read properties")
  | VArr items => ret (nth 0 items VUndef)
  | VStr (String c _) => ret (VStr (String c EmptyString))
  | VObj fields => ret (assoc "0" fields)
  | _ => ret VUndef
  end.

(* ================================================================== *)
(** ** The remote service facade (lib/appwrite/backend) *)
(* ================================================================== *)

(** The facade's typed inputs ([@/types]). *)
Record INewUser : Type := mkINewUser {
  nu_name : string;
  nu_email : string;
  nu_username : string;
  nu_password : string
}.

Record INewPost : Type := mkINewPost {
  np_userId : string;
  np_caption : string;
  np_file : list value;
  np_location : option string;
  np_tags : option string
}.

Record IUpdatePost : Type := mkIUpdatePost {
  up_postId : string;
  up_caption : string;
  up_imageId : string;
  up_imageUrl : value;
  up_file : list value;
  up_location : option string;
  up_tags : option string
}.

Record IUpdateUser : Type := mkIUpdateUser {
  uu_userId : string;
  uu_name : string;
  uu_bio : string;
  uu_imageId : string;
  uu_imageUrl : value;
  uu_file : list value
}.

(** [tags?.replace(/ /g, "").split(",") || []] *)
Definition tags_array (tags : option string) : value :=
  match tags with
  | Some s => VArr (map VStr (split_comma (remove_spaces s)))
  | None => VArr []
  end.

Module Backend.
Section Facade.

(** The SDK: how each call is answered, given the run so far. *)
Variable sdk : list event -> call -> reply.
(** [ID.unique()] *)
Variable ID_unique : list event -> value.
Variable AppWriteConfig : Config.

Definition unique : M value := fun h => (Ret (ID_unique h), []).

(** Calling an SDK method that returns a promise: a throw on the spot
    is an exception here, otherwise the promise is handed back. *)
Definition start (c : call) : M (outcome value) :=
  fun h =>
    match sdk h c with
    | Threw e => (Exn e, [ERemote c (Threw e)])
    | Gave p => (Ret p, [ERemote c (Gave p)])
    end.

(** [await sdk.method(...)]; also the call of a synchronous method,
    which returns its value or throws. *)
Definition request (c : call) : M value :=
  p <- start c ;; await p.

(** [try { body } catch (error) { console.log(error); }]: the function
    then falls off its end and returns [undefined]. *)
Definition try_log (site : string) (body : M value) : M value :=
  try_catch body (fun error => console_log site error ;; ret VUndef).

(* ---------------------------------------------------------------- *)
(** *** Auth *)

(** The promise of [createDocument] is returned without [await]: only a
    throw on the spot reaches the [catch]; a rejection settles the
    promise of [saveUserToDB] itself. *)
Definition saveUserToDB (user : value) : M value :=
  r <- try_catch
         (docId <- unique ;;
          newUser <- start (databases_createDocument
                              (databasesId AppWriteConfig)
                              (usersCollectionId AppWriteConfig)
                              docId user) ;;
          ret (Some newUser))
         (fun error => console_log "saveUserToDB" error ;; ret None) ;;
  match r with
  | Some promise => await promise
  | None => ret VUndef
  end.

Definition signUpAccount (user : INewUser) : M value :=
  try_catch
    (userId <- unique ;;
     newAccount <- request (account_create userId
                              (VStr (nu_email user))
                              (VStr (nu_password user))
                              (VStr (nu_name user))) ;;
     if negb (truthy newAccount)
     then throw (Error "New Account missing create")
     else
       avatarUrl <- request (avatars_getInitials (VStr (nu_name user))) ;;
       newUser <- saveUserToDB
                    (VObj [("accountId", prop newAccount "$id");
                           ("email", prop newAccount "email");
                           ("name", prop newAccount "name");
                           ("username", VStr (nu_username user));
                           ("imageUrl", avatarUrl)]) ;;
       ret newUser)
    (fun error => console_log "signUpAccount" error ;; ret error).

Definition signInAccount (email password : string) : M value :=
  try_log "signInAccount"
    (session <- request (account_createEmailPasswordSession
                           (VStr email) (VStr password)) ;;
     ret session).

Definition getAccount : M value :=
  try_log "getAccount"
    (currentAccount <- request account_get ;;
     ret currentAccount).

(** [listDocuments] is called without [await]: [currentUser] is the
    promise, so the test [!currentUser] is on the promise; it is awaited
    inside the [try]. *)
Definition getCurrentUser : M value :=
  try_catch
    (currentAccount <- getAccount ;;
     if negb (truthy currentAccount)
     then throw (Error "Failed to retrieve the current account")
     else
       currentUser <- start (databases_listDocuments
                               (databasesId AppWriteConfig)
                               (usersCollectionId AppWriteConfig)
                               [Query_equal "accountId"
                                  (prop currentAccount "$id")]) ;;
       if negb (promise_truthy currentUser)
       then throw (Error "No user found")
       else
         response <- await currentUser ;;
         documents <- get_prop response "documents" ;;
         index0 documents)
    (fun error => console_log "getCurrentUser" error ;; ret VNull).

(** As in [saveUserToDB], the promise is returned without [await]. *)
Definition signOutAccount : M value :=
  r <- try_catch
         (session <- start (account_deleteSession (VStr "current")) ;;
          ret (Some session))
         (fun error => console_log "signOutAccount" error ;; ret None) ;;
  match r with
  | Some promise => await promise
  | None => ret VUndef
  end.

(* ---------------------------------------------------------------- *)
(** *** Files *)

Definition uploadFile (file : value) : M value :=
  try_log "uploadFile"
    (fileId <- unique ;;
     fileDocument <- request (storage_createFile
                                (storageId AppWriteConfig) fileId file) ;;
     ret fileDocument).

Definition getFilePreview (fileId : value) : M value :=
  try_log "getFilePreview"
    (fileUrl <- request (storage_getFilePreview
                           (storageId AppWriteConfig) fileId 2000 2000) ;;
     if negb (truthy fileUrl)
     then throw (Error "Failed to get file preview")
     else ret fileUrl).

Definition deleteFile (fileId : value) : M value :=
  try_log "deleteFile"
    (request (storage_deleteFile (storageId AppWriteConfig) fileId) ;;
     ret (VObj [("status", VStr "ok")])).

(* ---------------------------------------------------------------- *)
(** *** Posts *)

Definition createPost (post : INewPost) : M value :=
  try_log "createPost"
    (uploadedFile <- uploadFile (nth 0 (np_file post) VUndef) ;;
     if negb (truthy uploadedFile) then throw ErrorCtor
     else
       fileUrl <- getFilePreview (prop uploadedFile "$id") ;;
       if negb (truthy fileUrl)
       then
         deleteFile (prop uploadedFile "$id") ;;
         throw (Error "Failed to retrieve file URL")
       else
         let tags := tags_array (np_tags post) in
         docId <- unique ;;
         newPost <- request (databases_createDocument
                               (databasesId AppWriteConfig)
                               (postsCollectionId AppWriteConfig)
                               docId
                               (VObj [("creator", VStr (np_userId post));
                                      ("caption", VStr (np_caption post));
                                      ("imageUrl", fileUrl);
                                      ("imageId", prop uploadedFile "$id");
                                      ("location",
                                       of_option_string (np_location post));
                                      ("tags", tags)])) ;;
         if negb (truthy newPost)
         then
           deleteFile (prop uploadedFile "$id") ;;
           throw (Error "Failed to create post")
         else ret newPost).

Definition searchPosts (searchTerm : string) : M value :=
  try_log "searchPosts"
    (posts <- request (databases_listDocuments
                         (databasesId AppWriteConfig)
                         (postsCollectionId AppWriteConfig)
                         [Query_search "caption" (VStr searchTerm)]) ;;
     if negb (truthy posts) then throw (Error "Failed to search posts")
     else ret posts).

(** The query list of [getInfinitePosts], built before its [try]. *)
Definition infinite_queries (pageParam : value) : list query :=
  let queries := [Query_orderDesc "$updatedAt"; Query_limit 9] in
  if truthy pageParam
  then (queries ++ [Query_cursorAfter (toString pageParam)])%list
  else queries.

Definition getInfinitePosts (pageParam : value) : M value :=
  let queries := infinite_queries pageParam in
  try_log "getInfinitePosts"
    (posts <- request (databases_listDocuments
                         (databasesId AppWriteConfig)
                         (postsCollectionId AppWriteConfig)
                         queries) ;;
     if negb (truthy posts) then throw (Error "Failed to retrieve posts")
     else ret posts).

Definition getPostById (postId : option string) : M value :=
  if negb (option_string_truthy postId)
  then throw (Error "Invalid post ID")
  else
    try_log "getPostById"
      (post <- request (databases_getDocument
                          (databasesId AppWriteConfig)
                          (postsCollectionId AppWriteConfig)
                          (of_option_string postId)) ;;
       if negb (truthy post) then throw (Error "Failed to retrieve post")
       else ret post).

Definition updatePost (post : IUpdatePost) : M value :=
  let hasFileToUpdate := Nat.ltb 0 (List.length (up_file post)) in
  try_log "updatePost"
    (let image := (up_imageUrl post, VStr (up_imageId post)) in
     image <- (if hasFileToUpdate
               then
                 uploadedFile <- uploadFile (nth 0 (up_file post) VUndef) ;;
                 if negb (truthy uploadedFile)
                 then throw (Error "Failed to upload file")
                 else
                   fileUrl <- getFilePreview (prop uploadedFile "$id") ;;
                   if negb (truthy fileUrl)
                   then
                     deleteFile (prop uploadedFile "$id") ;;
                     throw (Error "Failed to get file preview")
                   else ret (fileUrl, prop uploadedFile "$id")
               else ret image) ;;
     let tags := tags_array (up_tags post) in
     updatedPost <- request (databases_updateDocument
                               (databasesId AppWriteConfig)
                               (postsCollectionId AppWriteConfig)
                               (VStr (up_postId post))
                               (VObj [("caption", VStr (up_caption post));
                                      ("imageUrl", fst image);
                                      ("imageId", snd image);
                                      ("location",
                                       of_option_string (up_location post));
                                      ("tags", tags)])) ;;
     if negb (truthy updatedPost)
     then
       (if hasFileToUpdate then deleteFile (snd image) else ret VUndef) ;;
       throw (Error "Failed to update post")
     else
       (if hasFileToUpdate
        then deleteFile (VStr (up_imageId post))
        else ret VUndef) ;;
       ret updatedPost).

Definition deletePost (postId imageId : option string) : M value :=
  if negb (option_string_truthy postId)
     || negb (option_string_truthy imageId)
  then ret VUndef
  else
    try_log "deletePost"
      (statusCode <- request (databases_deleteDocument
                                (databasesId AppWriteConfig)
                                (postsCollectionId AppWriteConfig)
                                (of_option_string postId)) ;;
       if negb (truthy statusCode)
       then throw (Error "Failed to delete post")
       else
         deleteFile (of_option_string imageId) ;;
         ret (VObj [("status", VStr "Ok")])).

Definition likePost (postId : string) (likesArray : list string)
  : M value :=
  try_log "likePost"
    (updatedPost <- request (databases_updateDocument
                               (databasesId AppWriteConfig)
                               (postsCollectionId AppWriteConfig)
                               (VStr postId)
                               (VObj [("likes",
                                       VArr (map VStr likesArray))])) ;;
     if negb (truthy updatedPost)
     then throw (Error "Failed to update likes")
     else ret updatedPost).

Definition savePost (userId postId : string) : M value :=
  try_log "savePost"
    (docId <- unique ;;
     updatedPost <- request (databases_createDocument
                               (databasesId AppWriteConfig)
                               (savesCollectionId AppWriteConfig)
                               docId
                               (VObj [("user", VStr userId);
                                      ("post", VStr postId)])) ;;
     if negb (truthy updatedPost) then throw (Error "Failed to save post")
     else ret updatedPost).

Definition deleteSavedPost (savedRecordId : string) : M value :=
  try_log "deleteSavedPost"
    (statusCode <- request (databases_deleteDocument
                              (databasesId AppWriteConfig)
                              (savesCollectionId AppWriteConfig)
                              (VStr savedRecordId)) ;;
     if negb (truthy statusCode)
     then throw (Error "Failed to delete saved post")
     else ret (VObj [("status", VStr "Ok")])).

Definition getUserPosts (userId : option string) : M value :=
  if negb (option_string_truthy userId) then ret VUndef
  else
    try_log "getUserPosts"
      (post <- request (databases_listDocuments
                          (databasesId AppWriteConfig)
                          (postsCollectionId AppWriteConfig)
                          [Query_equal "creator" (of_option_string userId);
                           Query_orderDesc "$createdAt"]) ;;
       if negb (truthy post)
       then throw (Error "Failed to retrieve user's posts")
       else ret post).

Definition getRecentPosts : M value :=
  try_log "getRecentPosts"
    (posts <- request (databases_listDocuments
                         (databasesId AppWriteConfig)
                         (postsCollectionId AppWriteConfig)
                         [Query_orderDesc "$createdAt"; Query_limit 20]) ;;
     if negb (truthy posts)
     then throw (Error "Failed to retrieve recent posts")
     else ret posts).

(* ---------------------------------------------------------------- *)
(** *** Users *)

Definition users_queries (limit : option Z) : list query :=
  let queries := [Query_orderDesc "$createdAt"] in
  match limit with
  | Some n => if Z.eqb n 0 then queries else (queries ++ [Query_limit n])%list
  | None => queries
  end.

Definition getUsers (limit : option Z) : M value :=
  let queries := users_queries limit in
  try_log "getUsers"
    (users <- request (databases_listDocuments
                         (databasesId AppWriteConfig)
                         (usersCollectionId AppWriteConfig)
                         queries) ;;
     if negb (truthy users) then throw (Error "Failed to retrieve users")
     else ret users).

Definition getUserById (userId : string) : M value :=
  try_log "getUserById"
    (user <- request (databases_getDocument
                        (databasesId AppWriteConfig)
                        (usersCollectionId AppWriteConfig)
                        (VStr userId)) ;;
     if negb (truthy user) then throw (Error "Failed to retrieve user")
     else ret user).

Definition updateUser (user : IUpdateUser) : M value :=
  let hasFileToUpdate := Nat.ltb 0 (List.length (uu_file user)) in
  try_log "updateUser"
    (let image := (uu_imageUrl user, VStr (uu_imageId user)) in
     image <- (if hasFileToUpdate
               then
                 uploadedFile <- uploadFile (nth 0 (uu_file user) VUndef) ;;
                 if negb (truthy uploadedFile)
                 then throw (Error "Failed to upload the file")
                 else
                   fileUrl <- getFilePreview (prop uploadedFile "$id") ;;
                   if negb (truthy fileUrl)
                   then
                     deleteFile (prop uploadedFile "$id") ;;
                     throw (Error "Failed to get file preview")
                   else ret (fileUrl, prop uploadedFile "$id")
               else ret image) ;;
     updatedUser <- request (databases_updateDocument
                               (databasesId AppWriteConfig)
                               (usersCollectionId AppWriteConfig)
                               (VStr (uu_userId user))
                               (VObj [("name", VStr (uu_name user));
                                      ("bio", VStr (uu_bio user));
                                      ("imageUrl", fst image);
                                      ("imageId", snd image)])) ;;
     if negb (truthy updatedUser)
     then
       (if hasFileToUpdate then deleteFile (snd image) else ret VUndef) ;;
       throw (Error "Failed to update the user")
     else
       (if string_is_truthy (uu_imageId user) && hasFileToUpdate
        then deleteFile (VStr (uu_imageId user))
        else ret VUndef) ;;
       ret updatedUser).

End Facade.
End Backend.

(* ================================================================== *)
(** ** The session state store (context/AuthProvider.tsx) *)
(* ================================================================== *)

Module AuthProvider.

Record Store : Type := mkStore {
  user : IUser;
  isAuthenticated : bool;
  isLoading : bool
}.

Definition INITIAL_USER : IUser :=
  {| id := VStr ""; name := VStr ""; username := VStr "";
     email := VStr ""; imageUrl := VStr ""; bio := VStr "" |}.

(** The three [useState] cells at their initial values. *)
Definition initial_store : Store :=
  {| user := INITIAL_USER; isAuthenticated := false; isLoading := false |}.

(** What a state setter recorded in the trace does to the store. *)
Definition apply_event (s : Store) (ev : event) : Store :=
  match ev with
  | ESetUser u =>
      {| user := u; isAuthenticated := isAuthenticated s;
         isLoading := isLoading s |}
  | ESetIsAuthenticated b =>
      {| user := user s; isAuthenticated := b; isLoading := isLoading s |}
  | ESetIsLoading b =>
      {| user := user s; isAuthenticated := isAuthenticated s;
         isLoading := b |}
  | ERemote _ _ | EConsole _ _ | ENavigate _ => s
  end.

Definition apply_events (s : Store) (evs : list event) : Store :=
  fold_left apply_event evs s.

Section Provider.

Variable sdk : list event -> call -> reply.
Variable AppWriteConfig : Config.

Definition getCurrentUser : M value :=
  Backend.getCurrentUser sdk AppWriteConfig.

Definition checkAuthUser : M bool :=
  emit (ESetIsLoading true) ;;
  try_finally
    (try_catch
       (currentUser <- getCurrentUser ;;
        if truthy currentUser
        then
          emit (ESetUser {| id := prop currentUser "$id";
                            name := prop currentUser "name";
                            username := prop currentUser "username";
                            email := prop currentUser "email";
                            imageUrl := prop currentUser "imageUrl";
                            bio := prop currentUser "bio" |}) ;;
          emit (ESetIsAuthenticated true) ;;
          ret true
        else ret false)
       (fun error => console_log "checkAuthUser" error ;; ret false))
    (emit (ESetIsLoading false)).

(** [cookieFallback === "[]" || cookieFallback === null ||
     cookieFallback === undefined] *)
Definition marker_missing (cookieFallback : value) : bool :=
  match cookieFallback with
  | VStr s => String.eqb s "[]"
  | VNull => true
  | VUndef => true
  | _ => false
  end.

(** The mount effect; [cookieFallback] is what
    [localStorage.getItem("cookieFallback")] returned.  The promise of
    [checkAuthUser()] is dropped. *)
Definition mount_effect (cookieFallback : value) : M unit :=
  (if marker_missing cookieFallback
   then emit (ENavigate "/sign-in")
   else ret tt) ;;
  checkAuthUser ;;
  ret tt.

End Provider.
End AuthProvider.

(* ================================================================== *)
(** ** Like and save controls (components/shared/PostStats.tsx) *)
(* ================================================================== *)

Module PostStats.

(** The two [useState] cells of the component. *)
Record State : Type := mkState {
  likes : list string;
  isSaved : bool
}.

(** The mutations the handlers fire and do not wait for. *)
Inductive mutation : Type :=
| likePost (postId : string) (likesArray : list string)
| savePost (userId postId : string)
| deleteSavePost (savedRecordId : string).

(** A document of the saves collection, as the component reads it:
    [record.$id] and [record.post.$id]. *)
Record SaveRecord : Type := mkSaveRecord {
  record_id : string;
  record_post_id : string
}.

(** The current-user query's data: [currentUser.save]. *)
Record CurrentUser : Type := mkCurrentUser {
  save : list SaveRecord
}.

(** [likesArray.includes(userId)] *)
Definition includes (likesArray : list string) (userId : string) : bool :=
  existsb (fun Id => String.eqb Id userId) likesArray.

(** The [likesArray] that [handleLikePost] computes from [likes]. *)
Definition likesArray_of (userId : string) (likes : list string)
  : list string :=
  let likesArray := likes in
  if includes likesArray userId
  then filter (fun Id => negb (String.eqb Id userId)) likesArray
  else (likesArray ++ [userId])%list.

Definition handleLikePost (postId userId : string) (st : State)
  : State * list mutation :=
  let likesArray := likesArray_of userId (likes st) in
  ({| likes := likesArray; isSaved := isSaved st |},
   [likePost postId likesArray]).

(** [currentUser?.save.find(record => record.post.$id === post.$id)] *)
Definition savedPostRecord (currentUser : option CurrentUser)
                           (postId : string) : option SaveRecord :=
  match currentUser with
  | Some u => find (fun record => String.eqb (record_post_id record) postId)
                   (save u)
  | None => None
  end.

(** The effect on [currentUser]: [setIsSaved(!!savedPostRecord)]. *)
Definition sync_isSaved (record : option SaveRecord) (st : State) : State :=
  {| likes := likes st;
     isSaved := match record with Some _ => true | None => false end |}.

(** [handleSavePost] in a render whose lookup gave [record]. *)
Definition handleSavePost (record : option SaveRecord)
                          (postId userId : string) (st : State)
  : State * list mutation :=
  match record with
  | Some r =>
      ({| likes := likes st; isSaved := false |},
       [deleteSavePost (record_id r)])
  | None =>
      ({| likes := likes st; isSaved := true |},
       [savePost userId postId])
  end.

(** [n] clicks on the like icon. *)
Fixpoint like_clicks (n : nat) (postId userId : string) (st : State)
  : State :=
  match n with
  | O => st
  | S k => like_clicks k postId userId
             (fst (handleLikePost postId userId st))
  end.

(** [n] clicks on the save icon while the lookup stays at [record]:
    the states after each click, oldest first. *)
Fixpoint save_clicks (n : nat) (record : option SaveRecord)
                     (postId userId : string) (st : State) : list State :=
  match n with
  | O => []
  | S k =>
      let st' := fst (handleSavePost record postId userId st) in
      st' :: save_clicks k record postId userId st'
  end.

(** What a toggle would show after [n] clicks. *)
Fixpoint parity_flag (n : nat) (initial : bool) : bool :=
  match n with
  | O => initial
  | S k => negb (parity_flag k initial)
  end.

End PostStats.

(* ================================================================== *)
(** ** The routing shell (App.tsx and the two layouts) *)
(* ================================================================== *)

Module Routing.

(** The [Route] entries of [App.tsx]. *)
Inductive Route : Type :=
| sign_in                     (* /sign-in *)
| sign_up                     (* /sign-up *)
| home                        (* index *)
| explore                     (* /explore *)
| saved                       (* /saved *)
| users_community             (* /users-community *)
| create_post                 (* /create-post *)
| update_post (id : string)   (* /update-post/:id *)
| post_details (id : string)  (* /posts/:id *)
| profile (id rest : string)  (* /profile/:id/* *)
| update_profile (id : string). (* /update-profile/:id *)

Inductive Layout : Type :=
| AuthLayoutL
| RootLayoutL.

(** Which layout route encloses each entry. *)
Definition layout_of (r : Route) : Layout :=
  match r with
  | sign_in | sign_up => AuthLayoutL
  | _ => RootLayoutL
  end.

(** What a layout returns, children not yet rendered. *)
Inductive Element : Type :=
| Navigate (to : string)
| Outlet
| Component (name : string)
| Img (alt : string)
| Tag (name : string) (children : list Element)
| Fragment (children : list Element).

(** [AuthLayout] declares its own [isAuthenticated]. *)
Definition AuthLayout (store : AuthProvider.Store) : Element :=
  let isAuthenticated := false in
  Fragment
    [if isAuthenticated
     then Navigate "/"
     else Fragment [Tag "main" [Outlet]; Img "banner"]].

Definition RootLayout (store : AuthProvider.Store) : Element :=
  Tag "main"
    [Component "TopNavBar";
     Component "AsideNavBar";
     Tag "section" [Outlet];
     Component "BottomNavBar"].

(** The layout element [App] renders around the matched route. *)
Definition App (store : AuthProvider.Store) (r : Route) : Element :=
  match layout_of r with
  | AuthLayoutL => AuthLayout store
  | RootLayoutL => RootLayout store
  end.

(** Does the element tree contain a redirect to [to]? *)
Fixpoint redirects_to (to : string) (e : Element) : bool :=
  match e with
  | Navigate t => String.eqb t to
  | Tag _ children | Fragment children =>
      (fix any (l : list Element) : bool :=
         match l with
         | [] => false
         | x :: rest => redirects_to to x || any rest
         end) children
  | Outlet | Component _ | Img _ => false
  end.

Fixpoint renders_outlet (e : Element) : bool :=
  match e with
  | Outlet => true
  | Tag _ children | Fragment children =>
      (fix any (l : list Element) : bool :=
         match l with
         | [] => false
         | x :: rest => renders_outlet x || any rest
         end) children
  | Navigate _ | Component _ | Img _ => false
  end.

End Routing.

(* ================================================================== *)
(** ** Navigation bars (components/shared, constants/index.ts) *)
(* ================================================================== *)

Module NavBar.

(** An entry of [Links]; [imgURL] holds the name under which the icon
    is imported. *)
Record INavLink : Type := mkINavLink {
  imgURL : string;
  route : string;
  label : string
}.

Definition Links : list INavLink :=
  [ {| imgURL := "HomeIcon"; route := "/"; label := "Home" |};
    {| imgURL := "WallpaperIcon"; route := "/explore"; label := "Explore" |};
    {| imgURL := "PeopleIcon"; route := "/users-community";
       label := "People" |};
    {| imgURL := "BookmarkIcon"; route := "/saved"; label := "Saved" |};
    {| imgURL := "GalleryIcon"; route := "/create-post";
       label := "Create Post" |} ].

(** [pathname === link.route], in both bars. *)
Definition isActive (pathname : string) (link : INavLink) : bool :=
  String.eqb pathname (route link).

(** What [handleSignOut] of the side bar does, in order. *)
Inductive action : Type :=
| signOut                               (* the sign-out mutation is fired *)
| setIsAuthenticated (b : bool)
| setUser (u : IUser)
| navigate (path : string).

Definition handleSignOut : list action :=
  [signOut;
   setIsAuthenticated false;
   setUser AuthProvider.INITIAL_USER;
   navigate "/sign-in"].

(** The store setters and navigations among the actions, as trace
    events; firing the mutation sets nothing by itself. *)
Definition events_of (actions : list action) : list event :=
  flat_map (fun a =>
              match a with
              | signOut => []
              | setIsAuthenticated b => [ESetIsAuthenticated b]
              | setUser u => [ESetUser u]
              | navigate path => [ENavigate path]
              end) actions.

End NavBar.

(* ================================================================== *)
(** ** The saved-posts page (SavedPosts) *)
(* ================================================================== *)

Module SavedPosts.

(** A save record as the page reads it: [savePost.post], a document or
    null. *)
Record SaveDocument : Type := mkSaveDocument {
  post : option (list (string * value))
}.

(** The current-user query's data as the page reads it. *)
Record CurrentUser : Type := mkCurrentUser {
  imageUrl : value;
  save : list SaveDocument
}.

(** Writing the key [k] in an object literal after a spread: an existing
    key keeps its place and takes the new value, a new key goes last. *)
Fixpoint set_field (k : string) (v : value) (fields : list (string * value))
  : list (string * value) :=
  match fields with
  | [] => [(k, v)]
  | (k', v') :: rest =>
      if String.eqb k k' then (k', v) :: rest
      else (k', v') :: set_field k v rest
  end.

(** [{ ...savePost.post, creator: { imageUrl: currentUser.imageUrl } }] *)
Definition with_creator (currentUser : CurrentUser) (savePost : SaveDocument)
  : value :=
  let spread := match post savePost with
                | Some fields => fields
                | None => []
                end in
  VObj (set_field "creator" (VObj [("imageUrl", imageUrl currentUser)])
          spread).

(** [currentUser?.save.map(...).reverse()] *)
Definition savePosts (currentUser : option CurrentUser)
  : option (list value) :=
  match currentUser with
  | Some u => Some (rev (map (with_creator u) (save u)))
  | None => None
  end.

Inductive view : Type :=
| Loader
| NoAvailablePosts
| GridPostsList (posts : list value).

(** What the page shows under its heading. *)
Definition render (currentUser : option CurrentUser) : view :=
  match currentUser, savePosts currentUser with
  | Some _, Some posts =>
      if Nat.eqb (List.length posts) 0 then NoAvailablePosts
      else GridPostsList posts
  | _, _ => Loader
  end.

End SavedPosts.

(* ================================================================== *)
(** ** Vocabulary of the properties *)
(* ================================================================== *)

(** Events that no state setter of the store listens to. *)
Definition inert (ev : event) : Prop :=
  match ev with
  | ERemote _ _ | EConsole _ _ => True
  | _ => False
  end.


(** The reply is a failure with error [e]. *)
Definition failed_with (r : reply) (e : value) : Prop :=
  r = Threw e \/ r = Gave (Exn e).

(** The event is a request to create a document. *)
Definition writes_document (ev : event) : Prop :=
  match ev with
  | ERemote (databases_createDocument _ _ _ _) _ => True
  | _ => False
  end.

(** The user object [checkAuthUser] builds from a document. *)
Definition user_of_document (doc : value) : IUser :=
  {| id := prop doc "$id";
     name := prop doc "name";
     username := prop doc "username";
     email := prop doc "email";
     imageUrl := prop doc "imageUrl";
     bio := prop doc "bio" |}.

(** The lookup [getCurrentUser] sends for an account. *)
Definition user_lookup (cfg : Config) (account : value) : call :=
  databases_listDocuments (databasesId cfg) (usersCollectionId cfg)
    [Query_equal "accountId" (prop account "$id")].

(** *** Strings and tags *)

(** [pieces.join(",")] *)
Fixpoint join_comma (pieces : list string) : string :=
  match pieces with
  | [] => ""
  | piece :: rest =>
      match rest with
      | [] => piece
      | _ => piece ++ "," ++ join_comma rest
      end
  end.

(** How many times [c] occurs in [s]. *)
Fixpoint count_char (c : ascii) (s : string) : nat :=
  match s with
  | EmptyString => 0
  | String c' rest =>
      (if Ascii.eqb c' c then 1 else 0) + count_char c rest
  end.

(** *** Kinds of SDK calls *)

(** The call asks the remote to create, change or delete something. *)
Definition mutating (c : call) : bool :=
  match c with
  | account_create _ _ _ _
  | account_createEmailPasswordSession _ _
  | account_deleteSession _
  | databases_createDocument _ _ _ _
  | databases_updateDocument _ _ _ _
  | databases_deleteDocument _ _ _
  | storage_createFile _ _ _
  | storage_deleteFile _ _ => true
  | account_get
  | avatars_getInitials _
  | databases_listDocuments _ _ _
  | databases_getDocument _ _ _
  | storage_getFilePreview _ _ _ _ => false
  end.

(** The event is a request to delete a file. *)
Definition deletes_file (ev : event) : Prop :=
  match ev with
  | ERemote (storage_deleteFile _ _) _ => True
  | _ => False
  end.

(** The event is a request to update a document. *)
Definition updates_document (ev : event) : Prop :=
  match ev with
  | ERemote (databases_updateDocument _ _ _ _) _ => True
  | _ => False
  end.

(** The event is an SDK call. *)
Definition is_remote (ev : event) : Prop :=
  match ev with
  | ERemote _ _ => True
  | _ => False
  end.

(** The document [createPost] writes. *)
Definition post_document (post : INewPost) (uploadedFile fileUrl : value)
  : value :=
  VObj [("creator", VStr (np_userId post));
        ("caption", VStr (np_caption post));
        ("imageUrl", fileUrl);
        ("imageId", prop uploadedFile "$id");
        ("location", of_option_string (np_location post));
        ("tags", tags_array (np_tags post))].

(** The changes [updatePost] writes, for the image it ends up with. *)
Definition post_changes (post : IUpdatePost) (imageUrl imageId : value)
  : value :=
  VObj [("caption", VStr (up_caption post));
        ("imageUrl", imageUrl);
        ("imageId", imageId);
        ("location", of_option_string (up_location post));
        ("tags", tags_array (up_tags post))].

(** The changes [updateUser] writes, for the image it ends up with. *)
Definition user_changes (user : IUpdateUser) (imageUrl imageId : value)
  : value :=
  VObj [("name", VStr (uu_name user));
        ("bio", VStr (uu_bio user));
        ("imageUrl", imageUrl);
        ("imageId", imageId)].

(** The user document [signUpAccount] has [saveUserToDB] write. *)
Definition user_document_of (user : INewUser) (newAccount avatarUrl : value)
  : value :=
  VObj [("accountId", prop newAccount "$id");
        ("email", prop newAccount "email");
        ("name", prop newAccount "name");
        ("username", VStr (nu_username user));
        ("imageUrl", avatarUrl)].

(** *** The facade's exported operations, as one type *)

Inductive operation : Type :=
| op_signUpAccount (user : INewUser)
| op_saveUserToDB (user : value)
| op_signInAccount (email password : string)
| op_getAccount
| op_getCurrentUser
| op_signOutAccount
| op_createPost (post : INewPost)
| op_uploadFile (file : value)
| op_getFilePreview (fileId : value)
| op_deleteFile (fileId : value)
| op_searchPosts (searchTerm : string)
| op_getInfinitePosts (pageParam : value)
| op_getPostById (postId : option string)
| op_updatePost (post : IUpdatePost)
| op_deletePost (postId imageId : option string)
| op_likePost (postId : string) (likesArray : list string)
| op_savePost (userId postId : string)
| op_deleteSavedPost (savedRecordId : string)
| op_getUserPosts (userId : option string)
| op_getRecentPosts
| op_getUsers (limit : option Z)
| op_getUserById (userId : string)
| op_updateUser (user : IUpdateUser).

Section Invoke.

Variable sdk : list event -> call -> reply.
Variable ID_unique : list event -> value.
Variable cfg : Config.

Definition invoke (op : operation) : M value :=
  match op with
  | op_signUpAccount user => Backend.signUpAccount sdk ID_unique cfg user
  | op_saveUserToDB user => Backend.saveUserToDB sdk ID_unique cfg user
  | op_signInAccount email password =>
      Backend.signInAccount sdk email password
  | op_getAccount => Backend.getAccount sdk
  | op_getCurrentUser => Backend.getCurrentUser sdk cfg
  | op_signOutAccount => Backend.signOutAccount sdk
  | op_createPost post => Backend.createPost sdk ID_unique cfg post
  | op_uploadFile file => Backend.uploadFile sdk ID_unique cfg file
  | op_getFilePreview fileId => Backend.getFilePreview sdk cfg fileId
  | op_deleteFile fileId => Backend.deleteFile sdk cfg fileId
  | op_searchPosts searchTerm => Backend.searchPosts sdk cfg searchTerm
  | op_getInfinitePosts pageParam =>
      Backend.getInfinitePosts sdk cfg pageParam
  | op_getPostById postId => Backend.getPostById sdk cfg postId
  | op_updatePost post => Backend.updatePost sdk ID_unique cfg post
  | op_deletePost postId imageId =>
      Backend.deletePost sdk cfg postId imageId
  | op_likePost postId likesArray =>
      Backend.likePost sdk cfg postId likesArray
  | op_savePost userId postId =>
      Backend.savePost sdk ID_unique cfg userId postId
  | op_deleteSavedPost savedRecordId =>
      Backend.deleteSavedPost sdk cfg savedRecordId
  | op_getUserPosts userId => Backend.getUserPosts sdk cfg userId
  | op_getRecentPosts => Backend.getRecentPosts sdk cfg
  | op_getUsers limit => Backend.getUsers sdk cfg limit
  | op_getUserById userId => Backend.getUserById sdk cfg userId
  | op_updateUser user => Backend.updateUser sdk ID_unique cfg user
  end.

End Invoke.

(** The name under which an operation's own [catch] block logs. *)
Definition site_of (op : operation) : string :=
  match op with
  | op_signUpAccount _ => "signUpAccount"
  | op_saveUserToDB _ => "saveUserToDB"
  | op_signInAccount _ _ => "signInAccount"
  | op_getAccount => "getAccount"
  | op_getCurrentUser => "getCurrentUser"
  | op_signOutAccount => "signOutAccount"
  | op_createPost _ => "createPost"
  | op_uploadFile _ => "uploadFile"
  | op_getFilePreview _ => "getFilePreview"
  | op_deleteFile _ => "deleteFile"
  | op_searchPosts _ => "searchPosts"
  | op_getInfinitePosts _ => "getInfinitePosts"
  | op_getPostById _ => "getPostById"
  | op_updatePost _ => "updatePost"
  | op_deletePost _ _ => "deletePost"
  | op_likePost _ _ => "likePost"
  | op_savePost _ _ => "savePost"
  | op_deleteSavedPost _ => "deleteSavedPost"
  | op_getUserPosts _ => "getUserPosts"
  | op_getRecentPosts => "getRecentPosts"
  | op_getUsers _ => "getUsers"
  | op_getUserById _ => "getUserById"
  | op_updateUser _ => "updateUser"
  end.

(** What an operation's own [catch] block returns for the error [e]. *)
Definition caught_result (op : operation) (e : value) : value :=
  match op with
  | op_signUpAccount _ => e
  | op_getCurrentUser => VNull
  | _ => VUndef
  end.

(** The operations whose every throwing step sits inside their [try]:
    all but the two that return an SDK promise without awaiting it, and
    [getPostById] on a missing id, whose guard throws before the [try]. *)
Definition swallows (op : operation) : bool :=
  match op with
  | op_saveUserToDB _ | op_signOutAccount => false
  | op_getPostById postId => option_string_truthy postId
  | _ => true
  end.

(** The operations that make one SDK call and test its result. *)
Definition tests_result (op : operation) : bool :=
  match op with
  | op_getFilePreview _ | op_searchPosts _ | op_getInfinitePosts _
  | op_getPostById _ | op_likePost _ _ | op_savePost _ _
  | op_deleteSavedPost _ | op_getUserPosts _ | op_getRecentPosts
  | op_getUsers _ | op_getUserById _ => true
  | _ => false
  end.

(** The operations that only read. *)
Definition read_only (op : operation) : bool :=
  match op with
  | op_getAccount | op_getCurrentUser | op_getFilePreview _
  | op_searchPosts _ | op_getInfinitePosts _ | op_getPostById _
  | op_getUserPosts _ | op_getRecentPosts | op_getUsers _
  | op_getUserById _ => true
  | _ => false
  end.

(** *** Routes as paths *)

(** The path of a route entry of [App.tsx], parameters filled in. *)
Definition route_path (r : Routing.Route) : string :=
  match r with
  | Routing.sign_in => "/sign-in"
  | Routing.sign_up => "/sign-up"
  | Routing.home => "/"
  | Routing.explore => "/explore"
  | Routing.saved => "/saved"
  | Routing.users_community => "/users-community"
  | Routing.create_post => "/create-post"
  | Routing.update_post id => "/update-post/" ++ id
  | Routing.post_details id => "/posts/" ++ id
  | Routing.profile id rest => "/profile/" ++ id ++ "/" ++ rest
  | Routing.update_profile id => "/update-profile/" ++ id
  end.

(** What it means for a run of [op] to have swallowed its failures:
    it returned; every SDK failure in the trace was logged; if the
    operation's own [catch] block logged, the result is that block's; and,
    for the operations that test their one SDK result, a falsy result
    ends in the [catch] block with [undefined]. *)
Definition swallowed (op : operation) (run : outcome value * list event)
  : Prop :=
  exists v evs,
    run = (Ret v, evs)
    /\ (forall c r e,
          In (ERemote c r) evs -> failed_with r e ->
          exists site, In (EConsole site e) evs)
    /\ (forall e, In (EConsole (site_of op) e) evs -> v = caught_result op e)
    /\ (tests_result op = true ->
        forall c answer rest,
          evs = ERemote c (Gave (Ret answer)) :: rest ->
          truthy answer = false ->
          v = VUndef /\ exists e, In (EConsole (site_of op) e) rest).

(** *** Concrete remotes used to exercise the statements *)

Module Scenario.

Definition config : Config :=
  {| databasesId := VStr "db";
     storageId := VStr "bucket";
     usersCollectionId := VStr "users";
     postsCollectionId := VStr "posts";
     savesCollectionId := VStr "saves" |}.

Definition fresh_id : list event -> value := fun _ => VStr "unique()".

Definition network_error : value := Error "Network request failed".

(** Every call is rejected: no session, or no network. *)
Definition offline : list event -> call -> reply :=
  fun _ _ => Gave (Exn network_error).

Definition account : value :=
  VObj [("$id", VStr "acc1"); ("email", VStr "ada@example.org");
        ("name", VStr "Ada")].

Definition user_document : value :=
  VObj [("$id", VStr "user1"); ("name", VStr "Ada");
        ("username", VStr "ada"); ("email", VStr "ada@example.org");
        ("imageUrl", VStr "https://img/ada"); ("bio", VStr "hello");
        ("accountId", VStr "acc1")].

Definition document_list (documents : list value) : value :=
  VObj [("total", VNum (Z.of_nat (List.length documents)));
        ("documents", VArr documents)].

(** A live session whose user lookup returns [documents]. *)
Definition signed_in (documents : list value)
  : list event -> call -> reply :=
  fun _ c =>
    match c with
    | account_get => Gave (Ret account)
    | databases_listDocuments _ _ _ => Gave (Ret (document_list documents))
    | _ => Gave (Exn network_error)
    end.

Definition uploaded_file : value :=
  VObj [("$id", VStr "file1"); ("name", VStr "cat.png")].

(** Storage that takes the upload and deletes on request but has no
    preview to give. *)
Definition no_preview : list event -> call -> reply :=
  fun _ c =>
    match c with
    | storage_createFile _ _ _ => Gave (Ret uploaded_file)
    | storage_getFilePreview _ _ _ _ => Gave (Ret VUndef)
    | storage_deleteFile _ _ => Gave (Ret (VObj []))
    | _ => Gave (Exn network_error)
    end.

Definition preview_url : value := VStr "https://cloud/preview/file1".

Definition written_document : value :=
  VObj [("$id", VStr "doc1")].

(** Storage that works, with [write] as the answer to every document
    creation and update. *)
Definition storage_ok (write : reply) : list event -> call -> reply :=
  fun _ c =>
    match c with
    | storage_createFile _ _ _ => Gave (Ret uploaded_file)
    | storage_getFilePreview _ _ _ _ => Gave (Ret preview_url)
    | storage_deleteFile _ _ => Gave (Ret (VObj []))
    | databases_createDocument _ _ _ _ => write
    | databases_updateDocument _ _ _ _ => write
    | _ => Gave (Exn network_error)
    end.

(** A remote on which every deletion succeeds. *)
Definition deleting : list event -> call -> reply :=
  fun _ c =>
    match c with
    | databases_deleteDocument _ _ _ => Gave (Ret (VObj []))
    | storage_deleteFile _ _ => Gave (Ret (VObj []))
    | _ => Gave (Exn network_error)
    end.

(** A store after a successful [checkAuthUser]. *)
Definition signed_in_store : AuthProvider.Store :=
  {| AuthProvider.user := user_of_document user_document;
     AuthProvider.isAuthenticated := true;
     AuthProvider.isLoading := false |}.

(** The post controls of a post nobody liked or saved. *)
Definition fresh_controls : PostStats.State :=
  {| PostStats.likes := []; PostStats.isSaved := false |}.

Definition new_user : INewUser :=
  {| nu_name := "Ada"; nu_email := "ada@example.org";
     nu_username := "ada"; nu_password := "secret123" |}.

(** An edit of a post that brings a new image. *)
Definition edited_post : IUpdatePost :=
  {| up_postId := "post1"; up_caption := "a cat, again";
     up_imageId := "file0"; up_imageUrl := VStr "https://cloud/preview/file0";
     up_file := [VObj [("name", VStr "cat2.png")]];
     up_location := None; up_tags := Some "cat" |}.

Definition new_post : INewPost :=
  {| np_userId := "user1"; np_caption := "a cat";
     np_file := [VObj [("name", VStr "cat.png")]];
     np_location := Some "Paris"; np_tags := Some "cat, pet" |}.

End Scenario.

(* ================================================================== *)
(** * Properties *)
(* ================================================================== *)

Open Scope list_scope.

(** ** Likes *)

Section LikeToggle.
Import PostStats.

Variable userId : string.

Let other (Id : string) : bool := negb (String.eqb Id userId).

Lemma includes_In (l : list string) :
  includes l userId = true <-> In userId l.
Proof.
  unfold includes. rewrite existsb_exists. split.
  - intros [x [Hx Heq]]. apply String.eqb_eq in Heq. now subst.
  - intros H. exists userId. split; [assumption | apply String.eqb_refl].
Qed.

Lemma includes_false_not_In (l : list string) :
  includes l userId = false <-> ~ In userId l.
Proof.
  rewrite <- includes_In. destruct (includes l userId); split; congruence.
Qed.

Lemma filter_other_In (l : list string) (x : string) :
  In x (filter other l) <-> In x l /\ x <> userId.
Proof.
  rewrite filter_In. unfold other. rewrite negb_true_iff, String.eqb_neq.
  tauto.
Qed.

Lemma filter_other_absent (l : list string) :
  ~ In userId l -> filter other l = l.
Proof.
  induction l as [| y l IH]; simpl; intros Hn; [reflexivity |].
  unfold other at 1. destruct (String.eqb_spec y userId) as [-> | Hne].
  - exfalso. apply Hn. now left.
  - simpl. f_equal. apply IH. intros Hin. apply Hn. now right.
Qed.

Lemma count_filter_other (l : list string) :
  count_occ string_dec (filter other l) userId = 0.
Proof.
  apply count_occ_not_In. rewrite filter_other_In. tauto.
Qed.

Lemma count_append_absent (l : list string) :
  ~ In userId l -> count_occ string_dec (l ++ [userId]) userId = 1.
Proof.
  intros Hn. rewrite count_occ_app.
  rewrite (proj1 (count_occ_not_In string_dec l userId) Hn). simpl.
  destruct (string_dec userId userId); congruence.
Qed.

Lemma likesArray_of_present (l : list string) :
  In userId l -> likesArray_of userId l = filter other l.
Proof.
  intros H. unfold likesArray_of. apply includes_In in H. now rewrite H.
Qed.

Lemma likesArray_of_absent (l : list string) :
  ~ In userId l -> likesArray_of userId l = (l ++ [userId])%list.
Proof.
  intros H. unfold likesArray_of. apply includes_false_not_In in H.
  now rewrite H.
Qed.

Lemma likesArray_of_count (l : list string) :
  count_occ string_dec (likesArray_of userId l) userId <= 1.
Proof.
  destruct (in_dec string_dec userId l) as [Hin | Hn].
  - rewrite likesArray_of_present by assumption.
    rewrite count_filter_other. lia.
  - rewrite likesArray_of_absent by assumption.
    rewrite count_append_absent by assumption. lia.
Qed.

Lemma likesArray_of_twice_In (l : list string) (x : string) :
  In x (likesArray_of userId (likesArray_of userId l)) <-> In x l.
Proof.
  destruct (in_dec string_dec userId l) as [Hin | Hn].
  - rewrite (likesArray_of_present l Hin).
    rewrite likesArray_of_absent
      by (rewrite filter_other_In; tauto).
    rewrite in_app_iff, filter_other_In. simpl.
    destruct (string_dec x userId) as [-> | Hne]; [tauto |].
    split; [intros [[H _] | [H | []]]; congruence || assumption | tauto].
  - rewrite (likesArray_of_absent l Hn).
    rewrite likesArray_of_present by (apply in_or_app; right; now left).
    unfold other. rewrite filter_app. simpl.
    rewrite String.eqb_refl. simpl. rewrite app_nil_r.
    fold other. now rewrite filter_other_absent.
Qed.

Lemma like_clicks_succ_count (postId : string) (n : nat) (st : State) :
  count_occ string_dec (likes (like_clicks (S n) postId userId st)) userId
  <= 1.
Proof.
  revert st. induction n as [| n IH]; intros st.
  - simpl. apply likesArray_of_count.
  - change (like_clicks (S (S n)) postId userId st)
      with (like_clicks (S n) postId userId
              (fst (handleLikePost postId userId st))).
    apply IH.
Qed.

Lemma like_clicks_count (postId : string) (n : nat) (st : State) :
  count_occ string_dec (likes st) userId <= 1 ->
  count_occ string_dec (likes (like_clicks n postId userId st)) userId <= 1.
Proof.
  destruct n; [trivial | intros _; apply like_clicks_succ_count].
Qed.

End LikeToggle.

(** C1. One click on the like icon removes every occurrence of the acting
    user's id when the id is in the likes list and appends it otherwise;
    two clicks in a row give a list with the membership of the original
    one; after any click the id occurs at most once, and it keeps occurring
    at most once from a list that had it at most once. *)
Theorem like_toggle_membership_and_uniqueness
  (postId userId : string) (st : PostStats.State) :
  let once := PostStats.likes (fst (PostStats.handleLikePost postId userId st)) in
  (In userId (PostStats.likes st) ->
     once = filter (fun Id => negb (String.eqb Id userId)) (PostStats.likes st)
     /\ ~ In userId once)
  /\ (~ In userId (PostStats.likes st) ->
        once = (PostStats.likes st ++ [userId])%list)
  /\ snd (PostStats.handleLikePost postId userId st)
       = [PostStats.likePost postId once]
  /\ (forall x,
        In x (PostStats.likes (PostStats.like_clicks 2 postId userId st))
        <-> In x (PostStats.likes st))
  /\ (forall n,
        count_occ string_dec
          (PostStats.likes (PostStats.like_clicks (S n) postId userId st))
          userId <= 1)
  /\ (count_occ string_dec (PostStats.likes st) userId <= 1 ->
      forall n,
        count_occ string_dec
          (PostStats.likes (PostStats.like_clicks n postId userId st))
          userId <= 1).
Proof.
  cbv zeta.
  change (PostStats.likes (fst (PostStats.handleLikePost postId userId st)))
    with (PostStats.likesArray_of userId (PostStats.likes st)).
  split; [| split; [| split; [| split; [| split]]]].
  - intros Hin. split.
    + now apply likesArray_of_present.
    + rewrite likesArray_of_present by assumption.
      intros H. apply filter_other_In in H. tauto.
  - now apply likesArray_of_absent.
  - reflexivity.
  - intros x. apply likesArray_of_twice_In.
  - intros n. apply like_clicks_succ_count.
  - intros H n. now apply like_clicks_count.
Qed.

Lemma like_toggle_membership_and_uniqueness_witness :
  PostStats.likes
    (fst (PostStats.handleLikePost "post" "u"
            (PostStats.mkState ["a"; "u"; "u"] false))) = ["a"]
  /\ PostStats.likes
       (fst (PostStats.handleLikePost "post" "u"
               (PostStats.mkState ["a"] false))) = ["a"; "u"]
  /\ count_occ string_dec
       (PostStats.likes
          (PostStats.like_clicks 3 "post" "u" (PostStats.mkState ["a"] false)))
       "u" <= 1.
Proof.
  split; [| split].
  - destruct (like_toggle_membership_and_uniqueness "post" "u"
                (PostStats.mkState ["a"; "u"; "u"] false))
      as [Hpresent _].
    destruct Hpresent as [Heq _]; [simpl; tauto |].
    rewrite Heq. reflexivity.
  - destruct (like_toggle_membership_and_uniqueness "post" "u"
                (PostStats.mkState ["a"] false))
      as [_ [Habsent _]].
    rewrite Habsent; [reflexivity |].
    simpl. intros [H | []]. discriminate H.
  - destruct (like_toggle_membership_and_uniqueness "post" "u"
                (PostStats.mkState ["a"] false))
      as [_ [_ [_ [_ [_ Hkeep]]]]].
    apply Hkeep. simpl. lia.
Defined.

(** ** Running computations *)

Section TryCatch.

Context {A : Type}.
Variables (site : string) (recover : value -> A) (body : M A).

Let guarded : M A :=
  try_catch body (fun error => console_log site error ;; ret (recover error)).

(** A [catch] block that only logs never lets the exception out. *)
Lemma try_catch_log_cases (h : list event) :
  (exists a evs, body h = (Ret a, evs) /\ guarded h = (Ret a, evs))
  \/ (exists e evs,
        body h = (Exn e, evs)
        /\ guarded h = (Ret (recover e), (evs ++ [EConsole site e])%list)).
Proof.
  unfold guarded, try_catch, bind, console_log, emit, ret.
  destruct (body h) as [[a | e] evs].
  - left. now exists a, evs.
  - right. exists e, evs. split; reflexivity.
Qed.

Lemma try_catch_log_returns (h : list event) :
  exists a evs, guarded h = (Ret a, evs).
Proof.
  destruct (try_catch_log_cases h) as [(a & evs & _ & H) | (e & evs & _ & H)];
    rewrite H; eauto.
Qed.

End TryCatch.

(** Unfold the facade down to the SDK oracle. *)
Ltac unfold_facade :=
  unfold Backend.signUpAccount, Backend.saveUserToDB, Backend.signInAccount,
    Backend.getCurrentUser, Backend.getAccount, Backend.signOutAccount,
    Backend.createPost, Backend.updatePost, Backend.deletePost,
    Backend.updateUser, Backend.searchPosts, Backend.getInfinitePosts,
    Backend.getPostById, Backend.likePost, Backend.savePost,
    Backend.deleteSavedPost, Backend.getUserPosts, Backend.getRecentPosts,
    Backend.getUsers, Backend.getUserById,
    Backend.uploadFile, Backend.getFilePreview, Backend.deleteFile,
    Backend.try_log, Backend.request, Backend.start, Backend.unique,
    try_catch, try_finally, bind, await, console_log, emit, ret, throw,
    get_prop, index0, promise_truthy.

(** Case analysis on every SDK reply and every test on a value met. *)
Ltac split_sdk sdk :=
  cbn;
  repeat (match goal with
          | |- context [sdk ?h ?c] =>
              let R := fresh "Hreply" in
              destruct (sdk h c) as [? | [? | ?]] eqn:R
          | |- context [truthy ?v] =>
              let T := fresh "Htruthy" in
              destruct (truthy v) eqn:T
          | |- context [nullish ?v] => destruct v
          | |- context [match ?v with VUndef => _ | _ => _ end] =>
              destruct v
          | |- context [match ?s with EmptyString => _ | String _ _ => _ end] =>
              destruct s
          end; cbn).

Section SessionFacts.

Variable sdk : list event -> call -> reply.
Variable AppWriteConfig : Config.

Let getCurrentUser := AuthProvider.getCurrentUser sdk AppWriteConfig.
Let checkAuthUser := AuthProvider.checkAuthUser sdk AppWriteConfig.

Lemma apply_events_inert (evs : list event) (s : AuthProvider.Store) :
  Forall inert evs -> AuthProvider.apply_events s evs = s.
Proof.
  unfold AuthProvider.apply_events.
  induction 1 as [| ev evs Hev _ IH]; simpl; [reflexivity |].
  destruct ev; simpl in Hev; try contradiction; exact IH.
Qed.

Lemma getCurrentUser_returns (h : list event) :
  exists v evs, getCurrentUser h = (Ret v, evs).
Proof.
  unfold getCurrentUser, AuthProvider.getCurrentUser, Backend.getCurrentUser.
  apply (try_catch_log_returns "getCurrentUser" (fun _ => VNull)).
Qed.

Lemma getCurrentUser_inert (h : list event) :
  Forall inert (snd (getCurrentUser h)).
Proof.
  unfold getCurrentUser, AuthProvider.getCurrentUser.
  unfold_facade. split_sdk sdk; repeat constructor.
Qed.

End SessionFacts.

Section CurrentUser.

Variable sdk : list event -> call -> reply.
Variable AppWriteConfig : Config.

Let getCurrentUser := AuthProvider.getCurrentUser sdk AppWriteConfig.

Ltac run_getCurrentUser :=
  unfold getCurrentUser, AuthProvider.getCurrentUser, user_lookup in *;
  unfold_facade.



(** The lookup answered with a document list. *)
Lemma getCurrentUser_documents
  (h : list event) (account response : value) (documents : list value) :
  sdk h account_get = Gave (Ret account) ->
  truthy account = true ->
  sdk (h ++ [ERemote account_get (Gave (Ret account))])
    (user_lookup AppWriteConfig account) = Gave (Ret response) ->
  nullish response = false ->
  prop response "documents" = VArr documents ->
  getCurrentUser h
  = (Ret (nth 0 documents VUndef),
     [ERemote account_get (Gave (Ret account));
      ERemote (user_lookup AppWriteConfig account) (Gave (Ret response))]).
Proof.
  intros Hacc Htrue Hresp Hnn Hdocs. run_getCurrentUser.
  rewrite Hacc. cbn. rewrite Htrue. cbn. rewrite Hresp. cbn.
  rewrite Hnn. cbn. rewrite Hdocs. reflexivity.
Qed.

(** Whenever the [catch] block of [getCurrentUser] has run, the result
    is [null]. *)
Lemma getCurrentUser_caught (h : list event) (e : value) :
  In (EConsole "getCurrentUser" e) (snd (getCurrentUser h)) ->
  fst (getCurrentUser h) = Ret VNull.
Proof.
  run_getCurrentUser. split_sdk sdk; try reflexivity;
    intros Hin; repeat (destruct Hin as [Hin | Hin]; try discriminate Hin);
    contradiction.
Qed.

End CurrentUser.

(** ** The session store *)

Section CheckAuthUser.

Variable sdk : list event -> call -> reply.
Variable AppWriteConfig : Config.

Let getCurrentUser := AuthProvider.getCurrentUser sdk AppWriteConfig.
Let checkAuthUser := AuthProvider.checkAuthUser sdk AppWriteConfig.

(** The trace of [checkAuthUser] around that of [getCurrentUser]. *)
Lemma checkAuthUser_trace
  (h : list event) (currentUser : value) (fetched : list event) :
  getCurrentUser (h ++ [ESetIsLoading true]) = (Ret currentUser, fetched) ->
  checkAuthUser h
  = (Ret (truthy currentUser),
     (ESetIsLoading true :: fetched
      ++ (if truthy currentUser
          then [ESetUser (user_of_document currentUser);
                ESetIsAuthenticated true]
          else [])
      ++ [ESetIsLoading false])%list).
Proof.
  intros Hget.
  unfold checkAuthUser, AuthProvider.checkAuthUser.
  unfold try_finally, try_catch, bind at 1 2. cbn [emit].
  fold getCurrentUser. rewrite Hget.
  destruct (truthy currentUser); cbn;
    rewrite <- ?app_assoc, ?app_nil_r; reflexivity.
Qed.


Lemma apply_events_app (s : AuthProvider.Store) (xs ys : list event) :
  AuthProvider.apply_events s (xs ++ ys)
  = AuthProvider.apply_events (AuthProvider.apply_events s xs) ys.
Proof. apply fold_left_app. Qed.

End CheckAuthUser.



Section FalsyCurrentUser.

Variable sdk : list event -> call -> reply.
Variable AppWriteConfig : Config.

(** A falsy [currentUser] makes [checkAuthUser] answer false and touch
    nothing but the loading flag. *)
Lemma checkAuthUser_falsy
  (h : list event) (currentUser : value) (fetched : list event)
  (s : AuthProvider.Store) :
  AuthProvider.getCurrentUser sdk AppWriteConfig (h ++ [ESetIsLoading true])
  = (Ret currentUser, fetched) ->
  truthy currentUser = false ->
  let after :=
    AuthProvider.apply_events s
      (snd (AuthProvider.checkAuthUser sdk AppWriteConfig h)) in
  fst (AuthProvider.checkAuthUser sdk AppWriteConfig h) = Ret false
  /\ AuthProvider.user after = AuthProvider.user s
  /\ AuthProvider.isAuthenticated after = AuthProvider.isAuthenticated s.
Proof.
  intros Hget Hfalsy after. subst after.
  pose proof (getCurrentUser_inert sdk AppWriteConfig
                (h ++ [ESetIsLoading true])) as Hinert.
  rewrite Hget in Hinert. simpl in Hinert.
  rewrite (checkAuthUser_trace sdk AppWriteConfig h currentUser fetched Hget).
  rewrite Hfalsy. simpl fst. simpl snd.
  split; [reflexivity |].
  change (ESetIsLoading true :: ?l) with ([ESetIsLoading true] ++ l).
  rewrite !apply_events_app, (apply_events_inert fetched) by assumption.
  split; reflexivity.
Qed.

End FalsyCurrentUser.

(** C10. With a live account but no matching user document
    [getCurrentUser] returns undefined without logging anything, while
    whenever its catch block has run it returns null; either way
    [checkAuthUser] returns false and leaves the user object and
    [isAuthenticated] as they were. *)
Theorem missing_document_looks_like_no_session
  (sdk : list event -> call -> reply) (cfg : Config)
  (h : list event) (s : AuthProvider.Store) :
  let entered := h ++ [ESetIsLoading true] in
  let current := AuthProvider.getCurrentUser sdk cfg entered in
  let after :=
    AuthProvider.apply_events s (snd (AuthProvider.checkAuthUser sdk cfg h)) in
  let unchanged :=
    fst (AuthProvider.checkAuthUser sdk cfg h) = Ret false
    /\ AuthProvider.user after = AuthProvider.user s
    /\ AuthProvider.isAuthenticated after = AuthProvider.isAuthenticated s in
  (forall account response,
      sdk entered account_get = Gave (Ret account) ->
      truthy account = true ->
      sdk (entered ++ [ERemote account_get (Gave (Ret account))])
        (user_lookup cfg account) = Gave (Ret response) ->
      nullish response = false ->
      prop response "documents" = VArr [] ->
      current
      = (Ret VUndef,
         [ERemote account_get (Gave (Ret account));
          ERemote (user_lookup cfg account) (Gave (Ret response))])
      /\ (forall site e, ~ In (EConsole site e) (snd current))
      /\ unchanged)
  /\ (forall e,
        In (EConsole "getCurrentUser" e) (snd current) ->
        fst current = Ret VNull /\ unchanged).
Proof.
  intros entered current after unchanged. split.
  - intros account response Hacc Htrue Hresp Hnn Hdocs.
    pose proof (getCurrentUser_documents sdk cfg entered account response []
                  Hacc Htrue Hresp Hnn Hdocs) as Hget.
    simpl nth in Hget. subst current. rewrite Hget.
    split; [reflexivity |]. split.
    + intros site e [H | [H | []]]; discriminate H.
    + subst unchanged after. eapply checkAuthUser_falsy; [exact Hget |].
      reflexivity.
  - intros e Hin.
    pose proof (getCurrentUser_caught sdk cfg entered e Hin) as Hnull.
    split; [exact Hnull |].
    subst current unchanged after.
    destruct (AuthProvider.getCurrentUser sdk cfg entered)
      as [r fetched] eqn:Hget.
    simpl in Hnull. subst r.
    eapply checkAuthUser_falsy; [exact Hget | reflexivity].
Qed.

Lemma missing_document_looks_like_no_session_witness :
  AuthProvider.getCurrentUser (Scenario.signed_in []) Scenario.config
    [ESetIsLoading true]
  = (Ret VUndef,
     [ERemote account_get (Gave (Ret Scenario.account));
      ERemote (user_lookup Scenario.config Scenario.account)
        (Gave (Ret (Scenario.document_list [])))])
  /\ fst (AuthProvider.getCurrentUser Scenario.offline Scenario.config
            [ESetIsLoading true]) = Ret VNull
  /\ fst (AuthProvider.checkAuthUser Scenario.offline Scenario.config [])
     = Ret false.
Proof.
  destruct (missing_document_looks_like_no_session
              (Scenario.signed_in []) Scenario.config []
              AuthProvider.initial_store) as [Hempty _].
  destruct (missing_document_looks_like_no_session
              Scenario.offline Scenario.config []
              AuthProvider.initial_store) as [_ Hcaught].
  split; [| split].
  - apply (Hempty Scenario.account (Scenario.document_list []));
      reflexivity.
  - apply (Hcaught (Error "Failed to retrieve the current account")).
    vm_compute. tauto.
  - apply (Hcaught (Error "Failed to retrieve the current account")).
    vm_compute. tauto.
Defined.

(** ** The mount effect *)

Section Mount.

Variable sdk : list event -> call -> reply.
Variable AppWriteConfig : Config.

Let checkAuthUser := AuthProvider.checkAuthUser sdk AppWriteConfig.

Lemma marker_missing_iff (cookieFallback : value) :
  AuthProvider.marker_missing cookieFallback = true
  <-> cookieFallback = VNull \/ cookieFallback = VUndef
      \/ cookieFallback = VStr "[]".
Proof.
  split.
  - destruct cookieFallback; simpl; try discriminate; auto.
    intros H. apply String.eqb_eq in H. subst. auto.
  - intros [-> | [-> | ->]]; reflexivity.
Qed.

Lemma checkAuthUser_returns (h : list event) :
  exists b evs, checkAuthUser h = (Ret b, evs).
Proof.
  destruct (getCurrentUser_returns sdk AppWriteConfig
              (h ++ [ESetIsLoading true])) as (v & fetched & Hget).
  unfold checkAuthUser.
  rewrite (checkAuthUser_trace sdk AppWriteConfig h v fetched Hget).
  eauto.
Qed.

Lemma checkAuthUser_no_navigate (h : list event) (path : string) :
  ~ In (ENavigate path) (snd (checkAuthUser h)).
Proof.
  destruct (getCurrentUser_returns sdk AppWriteConfig
              (h ++ [ESetIsLoading true])) as (v & fetched & Hget).
  pose proof (getCurrentUser_inert sdk AppWriteConfig
                (h ++ [ESetIsLoading true])) as Hinert.
  rewrite Hget in Hinert. simpl in Hinert.
  unfold checkAuthUser.
  rewrite (checkAuthUser_trace sdk AppWriteConfig h v fetched Hget).
  simpl. intros [H | H]; [discriminate H |].
  apply in_app_or in H. destruct H as [H | H].
  - rewrite Forall_forall in Hinert. exact (Hinert _ H).
  - destruct (truthy v); simpl in H;
      repeat (destruct H as [H | H]; try discriminate H); exact H.
Qed.

(** The trace of the mount effect: the redirect, if any, then the run
    of [checkAuthUser]. *)
Lemma mount_effect_trace (cookieFallback : value) (h : list event) :
  let before :=
    if AuthProvider.marker_missing cookieFallback
    then [ENavigate "/sign-in"] else [] in
  AuthProvider.mount_effect sdk AppWriteConfig cookieFallback h
  = (Ret tt, before ++ snd (checkAuthUser (h ++ before))).
Proof.
  unfold AuthProvider.mount_effect.
  destruct (AuthProvider.marker_missing cookieFallback); cbv zeta.
  - destruct (checkAuthUser_returns (h ++ [ENavigate "/sign-in"]))
      as (b & evs & Hrun).
    unfold bind at 1. cbn [emit]. unfold bind at 1.
    fold checkAuthUser. rewrite Hrun. cbn. now rewrite app_nil_r.
  - destruct (checkAuthUser_returns (h ++ [])) as (b & evs & Hrun).
    unfold bind at 1. cbn [ret]. unfold bind at 1.
    fold checkAuthUser. rewrite Hrun. cbn. now rewrite app_nil_r.
Qed.

End Mount.

(** C9. The mount effect navigates to /sign-in exactly when the
    cookieFallback entry is absent (null or undefined) or is the empty
    list "[]", it navigates nowhere else, and in either case it then runs
    [checkAuthUser]. *)
Theorem mount_effect_redirect_and_check
  (sdk : list event -> call -> reply) (cfg : Config)
  (cookieFallback : value) (h : list event) :
  let run := AuthProvider.mount_effect sdk cfg cookieFallback h in
  (In (ENavigate "/sign-in") (snd run)
   <-> cookieFallback = VNull \/ cookieFallback = VUndef
       \/ cookieFallback = VStr "[]")
  /\ (forall path, In (ENavigate path) (snd run) -> path = "/sign-in")
  /\ (exists before,
        snd run
        = before ++ snd (AuthProvider.checkAuthUser sdk cfg (h ++ before))
        /\ Forall (fun ev => ev = ENavigate "/sign-in") before)
  /\ fst run = Ret tt.
Proof.
  intros run. subst run. rewrite mount_effect_trace. cbv zeta. simpl fst.
  simpl snd. rewrite <- marker_missing_iff.
  destruct (AuthProvider.marker_missing cookieFallback).
  - split; [| split; [| split]].
    + split; [reflexivity | intros _; now left].
    + intros path [H | H]; [now injection H as <- |].
      now apply checkAuthUser_no_navigate in H.
    + eexists. split; [reflexivity |]. repeat constructor.
    + reflexivity.
  - split; [| split; [| split]].
    + split; [| discriminate]. simpl. intros H.
      now apply checkAuthUser_no_navigate in H.
    + intros path H. simpl in H. now apply checkAuthUser_no_navigate in H.
    + exists []. split; [reflexivity | constructor].
    + reflexivity.
Qed.

Lemma mount_effect_redirect_and_check_witness :
  In (ENavigate "/sign-in")
    (snd (AuthProvider.mount_effect Scenario.offline Scenario.config
            (VStr "[]") []))
  /\ ~ In (ENavigate "/sign-in")
       (snd (AuthProvider.mount_effect
               (Scenario.signed_in [Scenario.user_document]) Scenario.config
               (VStr "{}") [])).
Proof.
  split.
  - apply (mount_effect_redirect_and_check Scenario.offline Scenario.config
             (VStr "[]") []).
    right. right. reflexivity.
  - intros Hin.
    destruct (mount_effect_redirect_and_check
                (Scenario.signed_in [Scenario.user_document]) Scenario.config
                (VStr "{}") []) as [[Honly _] _].
    destruct (Honly Hin) as [H | [H | H]]; discriminate H.
Defined.

(** ** Pagination *)

(** Below 2^53 every integer is a double. *)
Lemma to_double_safe (a : Z) : (a < 2 ^ 53)%Z -> to_double a = a.
Proof.
  intros Ha. unfold to_double.
  destruct (Z.ltb_spec a (2 ^ 53)); [reflexivity | lia].
Qed.

(** From 2^53 on rounding stays at or above 2^53. *)
Lemma to_double_large (a : Z) :
  (2 ^ 53 <= a)%Z -> (2 ^ 53 <= to_double a)%Z.
Proof.
  intros Ha. unfold to_double.
  destruct (Z.ltb_spec a (2 ^ 53)); [lia |].
  assert (Hlog : (53 <= Z.log2 a)%Z).
  { change 53%Z with (Z.log2 (2 ^ 53)). apply Z.log2_le_mono. exact Ha. }
  set (shift := (Z.log2 a - 52)%Z).
  assert (Hshift : (1 <= shift)%Z) by (subst shift; lia).
  assert (Hpos : (0 < a)%Z) by lia.
  destruct (Z.log2_spec a Hpos) as [Hlow _].
  assert (Hpow : (2 ^ Z.log2 a = 2 ^ 52 * 2 ^ shift)%Z).
  { rewrite <- Z.pow_add_r by lia. f_equal. subst shift. lia. }
  assert (Hq : (2 ^ 52 <= Z.shiftr a shift)%Z).
  { rewrite Z.shiftr_div_pow2 by lia.
    apply Z.div_le_lower_bound; [apply Z.pow_pos_nonneg; lia |].
    rewrite Z.mul_comm. lia. }
  assert (Htwo : (2 <= 2 ^ shift)%Z).
  { change 2%Z with (2 ^ 1)%Z at 1. apply Z.pow_le_mono_r; lia. }
  rewrite Z.shiftl_mul_pow2 by lia.
  destruct (_ || _); nia.
Qed.

Lemma to_double_misses (x a : Z) :
  (x < 2 ^ 53)%Z -> (x < a)%Z -> Z.eqb (to_double a) x = false.
Proof.
  intros Hx Ha. apply Z.eqb_neq.
  destruct (Z.lt_ge_cases a (2 ^ 53)) as [Hsafe | Hlarge].
  - rewrite to_double_safe by assumption. lia.
  - pose proof (to_double_large a Hlarge). lia.
Qed.

(** A safe integer has no shorter spelling than its own digits. *)
Lemma shortest_safe (x : Z) (p : nat) :
  (0 <= x < 2 ^ 53)%Z -> shortest x p = x.
Proof.
  intros Hx. induction p as [| p IH]; [reflexivity |].
  cbn [shortest]. cbv zeta.
  set (unit := (10 ^ Z.of_nat (S p))%Z).
  assert (Hunit : (0 < unit)%Z) by (subst unit; apply Z.pow_pos_nonneg; lia).
  assert (Hlo : (x / unit * unit <= x)%Z)
    by (rewrite Z.mul_comm; apply Z.mul_div_le; exact Hunit).
  assert (Hhi : (x < x / unit * unit + unit)%Z).
  { pose proof (Z.mod_pos_bound x unit Hunit).
    pose proof (Z.div_mod x unit). nia. }
  rewrite (to_double_safe (x / unit * unit)) by lia.
  rewrite (to_double_misses x (x / unit * unit + unit)) by lia.
  cbn [andb].
  destruct (Z.eqb_spec (x / unit * unit) x) as [Heq | Hne];
    [exact Heq | exact IH].
Qed.

(** A positive safe integer is written with its own decimal digits. *)
Lemma Number_toString_safe (z : Z) :
  (0 < z < 2 ^ 53)%Z -> Number_toString z = digits z.
Proof.
  intros Hz. unfold Number_toString.
  destruct (Z.eqb_spec z 0); [lia |].
  destruct (Z.ltb_spec z 0); [lia |].
  rewrite Z.abs_eq by lia.
  rewrite to_double_safe by lia.
  destruct (Z.leb_spec (2 ^ 1024) z) as [Hbig | _].
  - assert (2 ^ 53 < 2 ^ 1024)%Z by (apply Z.pow_lt_mono_r; lia). lia.
  - rewrite shortest_safe by lia.
    destruct (Z.ltb_spec z (10 ^ 21)) as [_ | Hbig]; [reflexivity |].
    assert (2 ^ 53 < 10 ^ 21)%Z by reflexivity. lia.
Qed.

(** Beyond the safe integers the digits are the shortest that read back
    as the same double, and from 10^21 on an exponent is written. *)
Lemma Number_toString_beyond_safe :
  map Number_toString
    [2 ^ 53; 2 ^ 53 + 1; 2 ^ 60; 2 ^ 64; 10 ^ 20; 10 ^ 21 - 1; 10 ^ 21;
     2 ^ 70; 123456789012345678901234567890; - (2 ^ 60); 2 ^ 1024]%Z
  = ["9007199254740992"; "9007199254740992"; "1152921504606847000";
     "18446744073709552000"; "100000000000000000000"; "1e+21"; "1e+21";
     "1.1805916207174113e+21"; "1.2345678901234568e+29";
     "-1152921504606847000"; "Infinity"].
Proof. vm_compute. reflexivity. Qed.

(** C6. With a falsy [pageParam] the query list of [getInfinitePosts] is
    the descending order on $updatedAt and the limit 9, with no cursor
    term; with a truthy one the cursor term on the stringified [pageParam]
    is appended to the same two (a string as it is, a safe integer by its
    decimal digits).  That list is what the one SDK call of the function
    carries. *)
Theorem getInfinitePosts_query_list
  (sdk : list event -> call -> reply) (cfg : Config)
  (pageParam : value) (h : list event) :
  let queries := Backend.infinite_queries pageParam in
  (truthy pageParam = false ->
     queries = [Query_orderDesc "$updatedAt"; Query_limit 9])
  /\ (truthy pageParam = true ->
        queries = [Query_orderDesc "$updatedAt"; Query_limit 9;
                   Query_cursorAfter (toString pageParam)])
  /\ (forall id, pageParam = VStr id -> id <> "" ->
        queries = [Query_orderDesc "$updatedAt"; Query_limit 9;
                   Query_cursorAfter id])
  /\ (forall z, pageParam = VNum z -> (0 < z < 2 ^ 53)%Z ->
        queries = [Query_orderDesc "$updatedAt"; Query_limit 9;
                   Query_cursorAfter (digits z)])
  /\ (exists r rest,
        snd (Backend.getInfinitePosts sdk cfg pageParam h)
        = ERemote (databases_listDocuments (databasesId cfg)
                     (postsCollectionId cfg) queries) r :: rest
        /\ forall c r', ~ In (ERemote c r') rest).
Proof.
  cbv zeta. split; [| split; [| split; [| split]]].
  - intros Hfalsy. unfold Backend.infinite_queries. now rewrite Hfalsy.
  - intros Htruthy. unfold Backend.infinite_queries. now rewrite Htruthy.
  - intros id -> Hid. unfold Backend.infinite_queries. cbn [truthy].
    apply String.eqb_neq in Hid. rewrite Hid. reflexivity.
  - intros z -> Hz. unfold Backend.infinite_queries. cbn [truthy toString].
    destruct (Z.eqb_spec z 0); [lia |]. cbn [negb].
    now rewrite Number_toString_safe.
  - unfold_facade. generalize (Backend.infinite_queries pageParam) as queries.
    intros queries. split_sdk sdk; eexists _, _;
      (split; [reflexivity |]); intros c r' Hin; simpl in Hin;
      repeat (destruct Hin as [Hin | Hin]; try discriminate Hin);
      exact Hin.
Qed.

Lemma getInfinitePosts_query_list_witness :
  Backend.infinite_queries VUndef
  = [Query_orderDesc "$updatedAt"; Query_limit 9]
  /\ Backend.infinite_queries (VNum 0)
     = [Query_orderDesc "$updatedAt"; Query_limit 9]
  /\ Backend.infinite_queries (VStr "post9")
     = [Query_orderDesc "$updatedAt"; Query_limit 9;
        Query_cursorAfter "post9"]
  /\ Backend.infinite_queries (VNum 42)
     = [Query_orderDesc "$updatedAt"; Query_limit 9;
        Query_cursorAfter "42"]
  /\ Backend.infinite_queries (VNum (2 ^ 60))
     = [Query_orderDesc "$updatedAt"; Query_limit 9;
        Query_cursorAfter "1152921504606847000"]
  /\ Backend.infinite_queries (VNum (10 ^ 21))
     = [Query_orderDesc "$updatedAt"; Query_limit 9;
        Query_cursorAfter "1e+21"].
Proof.
  assert (Hfalsy : forall pageParam,
             truthy pageParam = false ->
             Backend.infinite_queries pageParam
             = [Query_orderDesc "$updatedAt"; Query_limit 9]).
  { intros pageParam.
    apply (getInfinitePosts_query_list Scenario.offline Scenario.config
             pageParam []). }
  assert (Htruthy : forall pageParam,
             truthy pageParam = true ->
             Backend.infinite_queries pageParam
             = [Query_orderDesc "$updatedAt"; Query_limit 9;
                Query_cursorAfter (toString pageParam)]).
  { intros pageParam.
    apply (getInfinitePosts_query_list Scenario.offline Scenario.config
             pageParam []). }
  split; [apply Hfalsy; reflexivity |].
  split; [apply Hfalsy; reflexivity |].
  split; [apply (Htruthy (VStr "post9")); reflexivity |].
  split; [rewrite (Htruthy (VNum 42) eq_refl); vm_compute; reflexivity |].
  split; [rewrite (Htruthy (VNum (2 ^ 60)) eq_refl); vm_compute;
          reflexivity |].
  rewrite (Htruthy (VNum (10 ^ 21)) eq_refl); vm_compute; reflexivity.
Defined.

(** ** Deleting a post *)

(** C7. Without a post id or without an image id [deletePost] returns
    undefined and calls nothing.  With both ids it first asks for the
    deletion of the post document; once that is fulfilled with a truthy
    status it asks for the deletion of the file, calls nothing else and
    returns its status object; when the document deletion fails or gives a
    falsy status no further call is made and the result is undefined. *)
Theorem deletePost_guard_and_order
  (sdk : list event -> call -> reply) (cfg : Config)
  (postId imageId : option string) (h : list event) :
  let run := Backend.deletePost sdk cfg postId imageId h in
  (postId = None \/ imageId = None -> run = (Ret VUndef, []))
  /\ (forall p i,
        postId = Some p -> imageId = Some i -> p <> "" -> i <> "" ->
        let document :=
          databases_deleteDocument (databasesId cfg) (postsCollectionId cfg)
            (VStr p) in
        let file := storage_deleteFile (storageId cfg) (VStr i) in
        let answer := sdk h document in
        exists rest,
          snd run = ERemote document answer :: rest
          /\ (forall status,
                answer = Gave (Ret status) -> truthy status = true ->
                exists logs,
                  rest = ERemote file (sdk (h ++ [ERemote document answer]) file)
                         :: logs
                  /\ (forall c r, ~ In (ERemote c r) logs)
                  /\ fst run = Ret (VObj [("status", VStr "Ok")]))
          /\ ((forall status,
                 answer = Gave (Ret status) -> truthy status = false) ->
              (forall c r, ~ In (ERemote c r) rest)
              /\ fst run = Ret VUndef)).
Proof.
  cbv zeta. split.
  - intros [-> | ->]; unfold Backend.deletePost; simpl;
      [reflexivity | now rewrite orb_true_r].
  - intros p i -> -> Hp Hi.
    unfold Backend.deletePost. simpl. unfold string_is_truthy.
    apply String.eqb_neq in Hp, Hi. rewrite Hp, Hi. simpl.
    unfold_facade.
    destruct (sdk h (databases_deleteDocument (databasesId cfg)
                       (postsCollectionId cfg) (VStr p)))
      as [e | [status | e]] eqn:Hdoc; cbn.
    + eexists. split; [reflexivity |]. split; [discriminate |].
      intros _. split; [| reflexivity].
      intros c r [H | []]. discriminate H.
    + destruct (truthy status) eqn:Hstatus; cbn.
      * match goal with
        | |- context [sdk ?h' ?c] =>
            destruct (sdk h' c) as [e | [done | e]] eqn:Hfile; cbn
        end;
          (eexists; split; [reflexivity |]; split;
           [ intros status' Heq _; eexists; split; [reflexivity |];
             split; [| reflexivity];
             intros c r Hin; simpl in Hin;
             repeat (destruct Hin as [Hin | Hin]; try discriminate Hin);
             exact Hin
           | intros Hfalsy; specialize (Hfalsy status eq_refl); congruence ]).
      * eexists. split; [reflexivity |]. split.
        -- intros status' Heq Htrue. injection Heq as <-. congruence.
        -- intros _. split; [| reflexivity].
           intros c r [H | []]. discriminate H.
    + eexists. split; [reflexivity |]. split; [discriminate |].
      intros _. split; [| reflexivity].
      intros c r [H | []]. discriminate H.
Qed.

Lemma deletePost_guard_and_order_witness :
  Backend.deletePost Scenario.deleting Scenario.config None (Some "file1") []
  = (Ret VUndef, [])
  /\ Backend.deletePost Scenario.deleting Scenario.config (Some "post1") None []
     = (Ret VUndef, [])
  /\ fst (Backend.deletePost Scenario.deleting Scenario.config
            (Some "post1") (Some "file1") [])
     = Ret (VObj [("status", VStr "Ok")]).
Proof.
  split; [| split].
  - apply (deletePost_guard_and_order Scenario.deleting Scenario.config
             None (Some "file1") []).
    now left.
  - apply (deletePost_guard_and_order Scenario.deleting Scenario.config
             (Some "post1") None []).
    now right.
  - destruct (deletePost_guard_and_order Scenario.deleting Scenario.config
                (Some "post1") (Some "file1") []) as [_ Hboth].
    destruct (Hboth "post1" "file1" eq_refl eq_refl)
      as (rest & _ & Hok & _); try discriminate.
    destruct (Hok (VObj []) eq_refl eq_refl) as (logs & _ & _ & Hres).
    exact Hres.
Defined.

(** ** Creating a post *)

Section UploadEvents.

Variable sdk : list event -> call -> reply.
Variable ID_unique : list event -> value.
Variable AppWriteConfig : Config.

(** [deleteFile] asks the SDK once for the deletion, logs a failure and
    returns. *)
Lemma deleteFile_trace (fileId : value) (h : list event) :
  let deletion := storage_deleteFile (storageId AppWriteConfig) fileId in
  exists v logs,
    Backend.deleteFile sdk AppWriteConfig fileId h
    = (Ret v, ERemote deletion (sdk h deletion) :: logs)
    /\ forall c r, ~ In (ERemote c r) logs.
Proof.
  cbv zeta. unfold_facade. split_sdk sdk; eexists _, _;
    (split; [reflexivity |]); intros c r Hin; simpl in Hin;
    repeat (destruct Hin as [Hin | Hin]; try discriminate Hin);
    exact Hin.
Qed.

(** [uploadFile] and [getFilePreview] never write a document. *)
Lemma uploadFile_no_document (file : value) (h : list event) :
  Forall (fun ev => ~ writes_document ev)
    (snd (Backend.uploadFile sdk ID_unique AppWriteConfig file h)).
Proof.
  unfold_facade. split_sdk sdk; repeat constructor; simpl; tauto.
Qed.

Lemma getFilePreview_no_document (fileId : value) (h : list event) :
  Forall (fun ev => ~ writes_document ev)
    (snd (Backend.getFilePreview sdk AppWriteConfig fileId h)).
Proof.
  clear ID_unique. unfold_facade. split_sdk sdk; repeat constructor; simpl; tauto.
Qed.

End UploadEvents.

(** C4. When the upload of [createPost] gives a file and the preview
    retrieval then gives a falsy value, [createPost] asks for the deletion
    of the uploaded file's id right after the preview attempt, never asks
    for a document to be created, logs the failure and returns
    undefined. *)
Theorem createPost_preview_failure_deletes_upload
  (sdk : list event -> call -> reply) (ID_unique : list event -> value)
  (cfg : Config) (post : INewPost) (h : list event)
  (uploadedFile fileUrl : value) (uploaded previewed : list event) :
  Backend.uploadFile sdk ID_unique cfg (nth 0 (np_file post) VUndef) h
  = (Ret uploadedFile, uploaded) ->
  truthy uploadedFile = true ->
  Backend.getFilePreview sdk cfg (prop uploadedFile "$id") (h ++ uploaded)
  = (Ret fileUrl, previewed) ->
  truthy fileUrl = false ->
  let deletion := storage_deleteFile (storageId cfg) (prop uploadedFile "$id") in
  let run := Backend.createPost sdk ID_unique cfg post h in
  exists logs,
    run = (Ret VUndef,
           uploaded ++ previewed
           ++ ERemote deletion (sdk (h ++ uploaded ++ previewed) deletion)
              :: logs
           ++ [EConsole "createPost" (Error "Failed to retrieve file URL")])
    /\ (forall c r, ~ In (ERemote c r) logs)
    /\ Forall (fun ev => ~ writes_document ev) (snd run).
Proof.
  intros Hupload Htruthy Hpreview Hfalsy deletion run.
  destruct (deleteFile_trace sdk cfg (prop uploadedFile "$id")
              (h ++ uploaded ++ previewed)) as (v & logs & Hdelete & Hlogs).
  assert (Hrun : run
                 = (Ret VUndef,
                    uploaded ++ previewed
                    ++ ERemote deletion
                         (sdk (h ++ uploaded ++ previewed) deletion) :: logs
                    ++ [EConsole "createPost"
                          (Error "Failed to retrieve file URL")])).
  { subst run. unfold Backend.createPost, Backend.try_log, try_catch.
    unfold bind at 1. rewrite Hupload, Htruthy. cbn [negb].
    unfold bind at 1. rewrite Hpreview, Hfalsy. cbn [negb].
    unfold bind at 1. rewrite <- app_assoc. cbv zeta in Hdelete.
    rewrite Hdelete. cbn. rewrite app_nil_r, <- !app_assoc. reflexivity. }
  clearbody run. subst run.
  exists logs. split; [reflexivity |]. split; [exact Hlogs |].
  simpl snd.
  pose proof (uploadFile_no_document sdk ID_unique cfg
                (nth 0 (np_file post) VUndef) h) as Hu.
  rewrite Hupload in Hu.
  pose proof (getFilePreview_no_document sdk cfg (prop uploadedFile "$id")
                (h ++ uploaded)) as Hp.
  rewrite Hpreview in Hp. simpl in Hu, Hp.
  apply Forall_app. split; [exact Hu |].
  apply Forall_app. split; [exact Hp |].
  constructor; [simpl; tauto |].
  apply Forall_app. split.
  - apply Forall_forall. intros ev Hin Hw.
    destruct ev as [c r | | | | |]; try contradiction.
    exact (Hlogs c r Hin).
  - repeat constructor. simpl. tauto.
Qed.

Lemma createPost_preview_failure_deletes_upload_witness :
  Backend.createPost Scenario.no_preview Scenario.fresh_id Scenario.config
    Scenario.new_post []
  = (Ret VUndef,
     [ERemote (storage_createFile (VStr "bucket") (VStr "unique()")
                 (VObj [("name", VStr "cat.png")]))
        (Gave (Ret Scenario.uploaded_file));
      ERemote (storage_getFilePreview (VStr "bucket") (VStr "file1") 2000 2000)
        (Gave (Ret VUndef));
      EConsole "getFilePreview" (Error "Failed to get file preview");
      ERemote (storage_deleteFile (VStr "bucket") (VStr "file1"))
        (Gave (Ret (VObj [])));
      EConsole "createPost" (Error "Failed to retrieve file URL")]).
Proof.
  destruct (createPost_preview_failure_deletes_upload
              Scenario.no_preview Scenario.fresh_id Scenario.config
              Scenario.new_post [] Scenario.uploaded_file VUndef
              [ERemote (storage_createFile (VStr "bucket") (VStr "unique()")
                          (VObj [("name", VStr "cat.png")]))
                 (Gave (Ret Scenario.uploaded_file))]
              [ERemote (storage_getFilePreview (VStr "bucket") (VStr "file1")
                          2000 2000) (Gave (Ret VUndef));
               EConsole "getFilePreview" (Error "Failed to get file preview")]
              eq_refl eq_refl eq_refl eq_refl)
    as (logs & Hrun & _ & _).
  rewrite Hrun. vm_compute in Hrun. injection Hrun as Hlogs.
  destruct logs as [| ev logs]; [reflexivity | exfalso].
  injection Hlogs as _ Hnil. symmetry in Hnil.
  apply app_eq_nil in Hnil. destruct Hnil as [_ Hnil]. discriminate Hnil.
Defined.

(** ** Failures in the facade *)

(** One fully evaluated run against the four parts of [swallowed]. *)
Ltac logged_failure Hin Hfail :=
  inversion Hin; subst;
  destruct Hfail as [Hfail | Hfail];
  first [ discriminate Hfail
        | inversion Hfail; subst; eexists; cbn [In]; eauto 12 ].

Ltac swallowed_leaf :=
  eexists _, _; split; [reflexivity |]; split; [| split];
  [ let Hin := fresh "Hin" in
    let Hfail := fresh "Hfail" in
    intros ? ? ? Hin Hfail; cbn [In] in Hin;
    repeat (destruct Hin as [Hin | Hin];
            [try discriminate Hin; logged_failure Hin Hfail |]);
    contradiction
  | let Hin := fresh "Hin" in
    intros ? Hin; cbn [In] in Hin;
    repeat (destruct Hin as [Hin | Hin];
            [try discriminate Hin; inversion Hin; subst; reflexivity |]);
    contradiction
  | let Heq := fresh "Heq" in
    let Hfalsy := fresh "Hfalsy" in
    intros ? ? ? ? Heq Hfalsy;
    first [ discriminate
          | inversion Heq; subst;
            first [ congruence
                  | split; [reflexivity | eexists; cbn [In]; eauto] ] ] ].

(** Case analysis on the guards evaluated before the first SDK call. *)
Ltac split_guards :=
  repeat (match goal with
          | |- context [option_string_truthy ?o] =>
              destruct (option_string_truthy o)
          | |- context [string_is_truthy ?s] =>
              destruct (string_is_truthy s)
          | |- context [List.length ?l] =>
              destruct l
          end;
          try match goal with
              | H : false = true |- _ => discriminate H
              end;
          cbn [negb orb andb Nat.ltb Nat.leb List.length nth]).

Ltac run_operation sdk :=
  unfold swallowed; cbn [invoke site_of caught_result tests_result];
  unfold_facade; cbn [negb fst snd app];
  split_guards; split_sdk sdk; swallowed_leaf.

Section Swallowing.

Variable sdk : list event -> call -> reply.
Variable ID_unique : list event -> value.
Variable cfg : Config.

Let run (op : operation) (h : list event) := invoke sdk ID_unique cfg op h.

Lemma swallows_swallowed (op : operation) (h : list event) :
  swallows op = true -> swallowed op (run op h).
Proof.
  unfold run. intros Hop.
  destruct op; cbn [swallows] in Hop; try discriminate Hop;
    try rewrite Hop; run_operation sdk.
Qed.

End Swallowing.

(** C3, amended. Every facade operation whose throwing steps all sit
    inside its [try] block returns to its caller whatever the SDK does,
    with every SDK failure logged; when its own [catch] block has run, the
    result is undefined, except that [signUpAccount] returns the caught
    error and [getCurrentUser] returns null; the operations that test
    their one SDK result turn a falsy result into a logged undefined.
    A missing id makes [getPostById] throw to its caller and makes
    [deletePost] and [getUserPosts] return undefined without any call or
    log. *)
Theorem facade_failures_swallowed
  (sdk : list event -> call -> reply) (ID_unique : list event -> value)
  (cfg : Config) (op : operation) (h : list event) :
  let run := invoke sdk ID_unique cfg in
  (swallows op = true -> swallowed op (run op h))
  /\ (forall postId,
        option_string_truthy postId = false ->
        run (op_getPostById postId) h = (Exn (Error "Invalid post ID"), []))
  /\ (forall postId imageId,
        option_string_truthy postId = false
        \/ option_string_truthy imageId = false ->
        run (op_deletePost postId imageId) h = (Ret VUndef, []))
  /\ (forall userId,
        option_string_truthy userId = false ->
        run (op_getUserPosts userId) h = (Ret VUndef, [])).
Proof.
  cbv zeta. split; [| split; [| split]].
  - apply swallows_swallowed.
  - intros postId Hmissing. cbn [invoke]. unfold Backend.getPostById.
    rewrite Hmissing. reflexivity.
  - intros postId imageId Hmissing. cbn [invoke]. unfold Backend.deletePost.
    destruct Hmissing as [-> | ->]; [| rewrite orb_true_r]; reflexivity.
  - intros userId Hmissing. cbn [invoke]. unfold Backend.getUserPosts.
    rewrite Hmissing. reflexivity.
Qed.

Lemma facade_failures_swallowed_witness :
  fst (invoke Scenario.offline Scenario.fresh_id Scenario.config
         (op_likePost "post1" ["user1"]) []) = Ret VUndef
  /\ invoke Scenario.offline Scenario.fresh_id Scenario.config
       (op_getPostById None) []
     = (Exn (Error "Invalid post ID"), []).
Proof.
  destruct (facade_failures_swallowed Scenario.offline Scenario.fresh_id
              Scenario.config (op_likePost "post1" ["user1"]) [])
    as (Hswallowed & Hthrows & _).
  split.
  - destruct (Hswallowed eq_refl) as (v & evs & Hrun & _ & Hcaught & _).
    rewrite Hrun. simpl. f_equal.
    apply (Hcaught Scenario.network_error).
    vm_compute in Hrun. injection Hrun as _ <-. simpl. tauto.
  - apply Hthrows. reflexivity.
Defined.

(** C3 as stated fails: with the network down [signUpAccount] returns the
    error object it caught, and [getPostById] without an id throws to its
    caller. *)
Lemma facade_failure_not_always_undefined :
  invoke Scenario.offline Scenario.fresh_id Scenario.config
    (op_signUpAccount Scenario.new_user) []
  = (Ret Scenario.network_error,
     [ERemote (account_create (VStr "unique()") (VStr "ada@example.org")
                 (VStr "secret123") (VStr "Ada"))
        (Gave (Exn Scenario.network_error));
      EConsole "signUpAccount" Scenario.network_error])
  /\ Scenario.network_error <> VUndef
  /\ invoke Scenario.offline Scenario.fresh_id Scenario.config
       (op_getPostById None) []
     = (Exn (Error "Invalid post ID"), [])
  /\ ~ (forall op,
          exists evs,
            invoke Scenario.offline Scenario.fresh_id Scenario.config op []
            = (Ret VUndef, evs)).
Proof.
  split; [reflexivity |]. split; [discriminate |]. split; [reflexivity |].
  intros Hall. destruct (Hall (op_getPostById None)) as [evs Hrun].
  discriminate Hrun.
Qed.

(** ** The save control *)

Section StaleRecord.
Import PostStats.

Variables (record : option SaveRecord) (postId userId : string).

(** While the lookup is not refreshed every click takes the same
    branch. *)
Lemma save_clicks_stale (n : nat) (st : State) :
  Forall (fun st' => isSaved st'
                     = match record with Some _ => false | None => true end)
    (save_clicks n record postId userId st).
Proof.
  revert st. induction n as [| n IH]; intros st; simpl.
  - constructor.
  - constructor; [destruct record; reflexivity | apply IH].
Qed.

Lemma save_clicks_length (n : nat) (st : State) :
  List.length (save_clicks n record postId userId st) = n.
Proof.
  revert st. induction n as [| n IH]; intros st; simpl;
    [reflexivity | now rewrite IH].
Qed.

End StaleRecord.

(** C5, the code at the failing input. Three clicks on the save icon of
    an unsaved post while the lookup stays undefined: the flag is true
    after each click and each click fires another [savePost], where a
    toggle would show true, false, true. *)
Theorem handleSavePost_stale_record_never_toggles :
  map PostStats.isSaved
    (PostStats.save_clicks 3 None "post1" "user1" Scenario.fresh_controls)
  = [true; true; true]
  /\ map (fun n => PostStats.parity_flag n false) [1; 2; 3]
     = [true; false; true]
  /\ (forall st,
        snd (PostStats.handleSavePost None "post1" "user1" st)
        = [PostStats.savePost "user1" "post1"])
  /\ PostStats.savedPostRecord None "post1" = None.
Proof.
  repeat split.
Qed.

(** ** The routing shell *)

(** C8, amended. Which layout a navigation gets is decided by the matched
    route alone: /sign-in and /sign-up get the unauthenticated layout and
    every other route the authenticated one, which renders its outlet and
    never redirects, whatever the session store holds. *)
Theorem layout_chosen_by_route
  (store store' : AuthProvider.Store) (r : Routing.Route) :
  (Routing.layout_of r = Routing.AuthLayoutL
   <-> r = Routing.sign_in \/ r = Routing.sign_up)
  /\ (Routing.layout_of r = Routing.RootLayoutL ->
        Routing.App store r = Routing.RootLayout store
        /\ Routing.App store r = Routing.App store' r
        /\ Routing.renders_outlet (Routing.App store r) = true
        /\ forall to, Routing.redirects_to to (Routing.App store r) = false).
Proof.
  split.
  - split.
    + destruct r; simpl; intros H; try discriminate H; auto.
    + intros [-> | ->]; reflexivity.
  - intros Hroot. unfold Routing.App. rewrite Hroot. repeat split.
Qed.

Lemma layout_chosen_by_route_witness :
  Routing.renders_outlet
    (Routing.App AuthProvider.initial_store (Routing.post_details "post1"))
  = true
  /\ Routing.layout_of Routing.sign_up = Routing.AuthLayoutL.
Proof.
  destruct (layout_chosen_by_route AuthProvider.initial_store
              Scenario.signed_in_store (Routing.post_details "post1"))
    as [_ Hroot].
  destruct (layout_chosen_by_route AuthProvider.initial_store
              Scenario.signed_in_store Routing.sign_up)
    as [Hauth _].
  split.
  - apply Hroot. reflexivity.
  - apply Hauth. now right.
Defined.

(** C8 as stated fails: the unauthenticated layout does not redirect a
    signed-in store to the home route, and the authenticated layout
    renders its outlet for a store that is not authenticated. *)
Lemma layouts_ignore_session_store :
  AuthProvider.isAuthenticated Scenario.signed_in_store = true
  /\ Routing.redirects_to "/"
       (Routing.App Scenario.signed_in_store Routing.sign_in) = false
  /\ AuthProvider.isAuthenticated AuthProvider.initial_store = false
  /\ Routing.renders_outlet
       (Routing.App AuthProvider.initial_store Routing.home) = true
  /\ ~ (forall store,
          AuthProvider.isAuthenticated store = true ->
          Routing.redirects_to "/" (Routing.AuthLayout store) = true).
Proof.
  repeat split.
  intros Hall. specialize (Hall Scenario.signed_in_store eq_refl).
  discriminate Hall.
Qed.

(* ================================================================== *)
(** * Further properties of the code *)
(* ================================================================== *)

(** ** Tags *)

Lemma split_comma_not_nil (s : string) : split_comma s <> [].
Proof.
  destruct s as [| c s]; simpl; [discriminate |].
  destruct (Ascii.eqb c ","); [discriminate |].
  destruct (split_comma s); discriminate.
Qed.

Lemma join_split_comma (s : string) : join_comma (split_comma s) = s.
Proof.
  induction s as [| c s IH]; [reflexivity |].
  simpl. destruct (Ascii.eqb_spec c ","%char) as [-> | Hc].
  - pose proof (split_comma_not_nil s) as Hnn.
    simpl. destruct (split_comma s) as [| p ps]; [contradiction |].
    now rewrite IH.
  - destruct (split_comma s) as [| p ps] eqn:Hs.
    + now destruct (split_comma_not_nil s).
    + simpl in *. destruct ps; rewrite <- IH; reflexivity.
Qed.

Lemma split_comma_length (s : string) :
  List.length (split_comma s) = S (count_char "," s).
Proof.
  induction s as [| c s IH]; [reflexivity |].
  simpl. destruct (Ascii.eqb c ","); simpl.
  - now rewrite IH.
  - destruct (split_comma s); simpl in *; [discriminate IH | exact IH].
Qed.

Lemma split_comma_no_comma (s : string) :
  Forall (fun piece => count_char "," piece = 0) (split_comma s).
Proof.
  induction s as [| c s IH]; simpl; [repeat constructor |].
  destruct (Ascii.eqb c ",") eqn:Hc.
  - constructor; [reflexivity | exact IH].
  - destruct (split_comma s) as [| p ps].
    + constructor; [simpl; now rewrite Hc | constructor].
    + inversion IH as [| ? ? Hp Hps]; subst.
      constructor; [simpl; now rewrite Hc, Hp | exact Hps].
Qed.

Lemma split_comma_keeps_absent (c : ascii) (s : string) :
  count_char c s = 0 ->
  Forall (fun piece => count_char c piece = 0) (split_comma s).
Proof.
  induction s as [| c' s IH]; simpl; intros Hnone; [repeat constructor |].
  destruct (Ascii.eqb c' c) eqn:Hc; [discriminate Hnone |].
  simpl in Hnone. specialize (IH Hnone).
  destruct (Ascii.eqb c' ",").
  - constructor; [reflexivity | exact IH].
  - destruct (split_comma s) as [| p ps].
    + constructor; [simpl; now rewrite Hc | constructor].
    + inversion IH as [| ? ? Hp Hps]; subst.
      constructor; [simpl; now rewrite Hc, Hp | exact Hps].
Qed.

Lemma remove_spaces_no_space (s : string) :
  count_char " " (remove_spaces s) = 0.
Proof.
  induction s as [| c s IH]; [reflexivity |].
  simpl. destruct (Ascii.eqb c " ") eqn:Hc; [exact IH |].
  simpl. now rewrite Hc, IH.
Qed.

Lemma remove_spaces_commas (s : string) :
  count_char "," (remove_spaces s) = count_char "," s.
Proof.
  induction s as [| c s IH]; [reflexivity |].
  simpl. destruct (Ascii.eqb_spec c " "%char) as [-> | Hc]; simpl.
  - exact IH.
  - now rewrite IH.
Qed.

(** X1. The tags written with a post are the pieces of the tags string
    between its commas with every space removed: joined by commas they
    give the string without its spaces, there is one more piece than
    there are commas (so an empty string gives one empty tag), and no
    piece holds a space or a comma.  Without a tags string the list is
    empty. *)
Theorem tags_array_pieces (s : string) :
  tags_array None = VArr []
  /\ exists pieces,
       tags_array (Some s) = VArr (map VStr pieces)
       /\ join_comma pieces = remove_spaces s
       /\ List.length pieces = S (count_char "," s)
       /\ Forall (fun piece =>
                    count_char " " piece = 0 /\ count_char "," piece = 0)
            pieces.
Proof.
  split; [reflexivity |].
  exists (split_comma (remove_spaces s)).
  split; [reflexivity |].
  split; [apply join_split_comma |].
  split; [rewrite split_comma_length; now rewrite remove_spaces_commas |].
  pose proof (split_comma_keeps_absent " " (remove_spaces s)
                (remove_spaces_no_space s)) as Hspace.
  pose proof (split_comma_no_comma (remove_spaces s)) as Hcomma.
  rewrite Forall_forall in *. intros piece Hin. split; auto.
Qed.

(** ** Files behind a post *)

Section UploadSteps.

Variable sdk : list event -> call -> reply.
Variable ID_unique : list event -> value.
Variable cfg : Config.

(** A truthy result of [uploadFile] is what the one SDK call gave. *)
Lemma uploadFile_truthy (file v : value) (h evs : list event) :
  Backend.uploadFile sdk ID_unique cfg file h = (Ret v, evs) ->
  truthy v = true ->
  evs = [ERemote (storage_createFile (storageId cfg) (ID_unique h) file)
           (Gave (Ret v))].
Proof.
  unfold_facade. cbn. rewrite app_nil_r.
  destruct (sdk h _) as [e | [a | e]]; cbn; intros Heq Htruthy;
    injection Heq as <- <-; first [discriminate Htruthy | reflexivity].
Qed.

(** A truthy result of [getFilePreview] is what the one SDK call gave. *)
Lemma getFilePreview_truthy (fileId url : value) (h evs : list event) :
  Backend.getFilePreview sdk cfg fileId h = (Ret url, evs) ->
  truthy url = true ->
  evs = [ERemote (storage_getFilePreview (storageId cfg) fileId 2000 2000)
           (Gave (Ret url))].
Proof.
  clear ID_unique. unfold_facade. cbn.
  destruct (sdk h _) as [e | [a | e]]; cbn; intros Heq Htruthy;
    try (injection Heq as <- <-; discriminate Htruthy).
  destruct (truthy a) eqn:Ha; cbn in Heq; injection Heq as <- <-;
    first [discriminate Htruthy | reflexivity].
Qed.

End UploadSteps.

Section CreatePost.

Variable sdk : list event -> call -> reply.
Variable ID_unique : list event -> value.
Variable cfg : Config.

Variables (post : INewPost) (h : list event).
Variables (uploadedFile fileUrl : value) (uploaded previewed : list event).

Hypothesis Hupload :
  Backend.uploadFile sdk ID_unique cfg (nth 0 (np_file post) VUndef) h
  = (Ret uploadedFile, uploaded).
Hypothesis Hfile : truthy uploadedFile = true.
Hypothesis Hpreview :
  Backend.getFilePreview sdk cfg (prop uploadedFile "$id") (h ++ uploaded)
  = (Ret fileUrl, previewed).
Hypothesis Hurl : truthy fileUrl = true.

Let ready := h ++ uploaded ++ previewed.
Let document :=
  databases_createDocument (databasesId cfg) (postsCollectionId cfg)
    (ID_unique ready) (post_document post uploadedFile fileUrl).
Let deletion := storage_deleteFile (storageId cfg) (prop uploadedFile "$id").

(** [createPost] once the file is up and has a preview: what is left is
    the document write and what follows from its answer. *)
Lemma createPost_after_preview :
  Backend.createPost sdk ID_unique cfg post h
  = match sdk ready document with
    | Gave (Ret newPost) =>
        if truthy newPost
        then (Ret newPost,
              uploaded ++ previewed
              ++ [ERemote document (Gave (Ret newPost))])
        else (Ret VUndef,
              uploaded ++ previewed
              ++ ERemote document (Gave (Ret newPost))
                 :: snd (Backend.deleteFile sdk cfg (prop uploadedFile "$id")
                           (ready ++ [ERemote document (Gave (Ret newPost))]))
              ++ [EConsole "createPost" (Error "Failed to create post")])
    | Threw e =>
        (Ret VUndef,
         uploaded ++ previewed
         ++ [ERemote document (Threw e); EConsole "createPost" e])
    | Gave (Exn e) =>
        (Ret VUndef,
         uploaded ++ previewed
         ++ [ERemote document (Gave (Exn e)); EConsole "createPost" e])
    end.
Proof.
  unfold Backend.createPost, Backend.try_log, try_catch.
  unfold bind at 1. rewrite Hupload, Hfile. cbn [negb].
  unfold bind at 1. rewrite Hpreview, Hurl. cbn [negb]. cbv zeta.
  unfold bind at 1. unfold Backend.unique at 1.
  unfold bind at 1. unfold Backend.request at 1. unfold bind at 1.
  unfold Backend.start. rewrite !app_nil_r, <- !app_assoc.
  fold ready. fold (post_document post uploadedFile fileUrl). fold document.
  destruct (sdk ready document) as [e | [newPost | e]]; cbn.
  - rewrite <- ?app_assoc; reflexivity.
  - destruct (truthy newPost); cbn.
    + rewrite <- ?app_assoc; reflexivity.
    + unfold bind at 1. rewrite ?app_nil_r.
      destruct (deleteFile_trace sdk cfg (prop uploadedFile "$id")
                  (ready ++ [ERemote document (Gave (Ret newPost))]))
        as (v & logs & Hdelete & _).
      cbv zeta in Hdelete. rewrite Hdelete. cbn.
      rewrite ?app_nil_r, <- ?app_assoc. cbn.
      rewrite ?app_nil_r, <- ?app_assoc. reflexivity.
  - rewrite <- ?app_assoc; reflexivity.
Qed.

Lemma upload_and_preview_delete_nothing :
  Forall (fun ev => ~ deletes_file ev) (uploaded ++ previewed).
Proof.
  rewrite (uploadFile_truthy sdk ID_unique cfg _ _ _ _ Hupload Hfile).
  rewrite (getFilePreview_truthy sdk cfg _ _ _ _ Hpreview Hurl).
  repeat constructor; simpl; tauto.
Qed.

(** X2. With the file uploaded and its preview URL at hand, [createPost]
    writes one post document made of the creator, the caption, the
    preview URL, the uploaded file's id, the location and the tag list;
    when the write gives a truthy document that document is the result
    and no file deletion is requested. *)
Theorem createPost_writes_document (newPost : value) :
  sdk ready document = Gave (Ret newPost) ->
  truthy newPost = true ->
  Backend.createPost sdk ID_unique cfg post h
  = (Ret newPost,
     uploaded ++ previewed ++ [ERemote document (Gave (Ret newPost))])
  /\ Forall (fun ev => ~ deletes_file ev)
       (snd (Backend.createPost sdk ID_unique cfg post h)).
Proof.
  intros Hwrite Htruthy. rewrite createPost_after_preview.
  rewrite Hwrite, Htruthy. split; [reflexivity |].
  simpl snd. rewrite app_assoc. apply Forall_app. split.
  - apply upload_and_preview_delete_nothing.
  - repeat constructor. simpl. tauto.
Qed.

(** X3. When the document write of [createPost] is fulfilled with a
    falsy value, the deletion of the uploaded file is requested next and
    the result is undefined; when the write throws or is rejected, the
    error is logged, the result is undefined and no file deletion is
    requested, so the uploaded file stays in storage. *)
Theorem createPost_failed_write :
  (forall newPost,
      sdk ready document = Gave (Ret newPost) ->
      truthy newPost = false ->
      exists logs,
        Backend.createPost sdk ID_unique cfg post h
        = (Ret VUndef,
           uploaded ++ previewed
           ++ ERemote document (Gave (Ret newPost))
              :: ERemote deletion
                   (sdk (ready ++ [ERemote document (Gave (Ret newPost))])
                      deletion)
              :: logs
           ++ [EConsole "createPost" (Error "Failed to create post")])
        /\ forall c r, ~ In (ERemote c r) logs)
  /\ (forall e,
        failed_with (sdk ready document) e ->
        Backend.createPost sdk ID_unique cfg post h
        = (Ret VUndef,
           uploaded ++ previewed
           ++ [ERemote document (sdk ready document);
               EConsole "createPost" e])
        /\ Forall (fun ev => ~ deletes_file ev)
             (snd (Backend.createPost sdk ID_unique cfg post h))).
Proof.
  split.
  - intros newPost Hwrite Hfalsy. rewrite createPost_after_preview.
    rewrite Hwrite, Hfalsy.
    destruct (deleteFile_trace sdk cfg (prop uploadedFile "$id")
                (ready ++ [ERemote document (Gave (Ret newPost))]))
      as (v & logs & Hdelete & Hlogs).
    cbv zeta in Hdelete. fold deletion in Hdelete.
    exists logs. rewrite Hdelete. split; [reflexivity | exact Hlogs].
  - intros e Hfailed. rewrite createPost_after_preview.
    destruct Hfailed as [Hwrite | Hwrite]; rewrite Hwrite;
      (split; [reflexivity |]);
      simpl snd; rewrite app_assoc; apply Forall_app;
      (split; [apply upload_and_preview_delete_nothing |]);
      repeat constructor; simpl; tauto.
Qed.

End CreatePost.

Lemma createPost_writes_document_witness :
  Backend.createPost
    (Scenario.storage_ok (Gave (Ret Scenario.written_document)))
    Scenario.fresh_id Scenario.config Scenario.new_post []
  = (Ret Scenario.written_document,
     [ERemote (storage_createFile (VStr "bucket") (VStr "unique()")
                 (VObj [("name", VStr "cat.png")]))
        (Gave (Ret Scenario.uploaded_file));
      ERemote (storage_getFilePreview (VStr "bucket") (VStr "file1") 2000 2000)
        (Gave (Ret Scenario.preview_url));
      ERemote (databases_createDocument (VStr "db") (VStr "posts")
                 (VStr "unique()")
                 (VObj [("creator", VStr "user1");
                        ("caption", VStr "a cat");
                        ("imageUrl", Scenario.preview_url);
                        ("imageId", VStr "file1");
                        ("location", VStr "Paris");
                        ("tags", VArr [VStr "cat"; VStr "pet"])]))
        (Gave (Ret Scenario.written_document))]).
Proof.
  apply (createPost_writes_document
           (Scenario.storage_ok (Gave (Ret Scenario.written_document)))
           Scenario.fresh_id Scenario.config Scenario.new_post []
           Scenario.uploaded_file Scenario.preview_url
           [ERemote (storage_createFile (VStr "bucket") (VStr "unique()")
                       (VObj [("name", VStr "cat.png")]))
              (Gave (Ret Scenario.uploaded_file))]
           [ERemote (storage_getFilePreview (VStr "bucket") (VStr "file1")
                       2000 2000) (Gave (Ret Scenario.preview_url))]
           eq_refl eq_refl eq_refl eq_refl Scenario.written_document
           eq_refl eq_refl).
Defined.

Lemma createPost_failed_write_witness :
  Backend.createPost
    (Scenario.storage_ok (Gave (Exn Scenario.network_error)))
    Scenario.fresh_id Scenario.config Scenario.new_post []
  = (Ret VUndef,
     [ERemote (storage_createFile (VStr "bucket") (VStr "unique()")
                 (VObj [("name", VStr "cat.png")]))
        (Gave (Ret Scenario.uploaded_file));
      ERemote (storage_getFilePreview (VStr "bucket") (VStr "file1") 2000 2000)
        (Gave (Ret Scenario.preview_url));
      ERemote (databases_createDocument (VStr "db") (VStr "posts")
                 (VStr "unique()")
                 (post_document Scenario.new_post Scenario.uploaded_file
                    Scenario.preview_url))
        (Gave (Exn Scenario.network_error));
      EConsole "createPost" Scenario.network_error]).
Proof.
  destruct (createPost_failed_write
              (Scenario.storage_ok (Gave (Exn Scenario.network_error)))
              Scenario.fresh_id Scenario.config Scenario.new_post []
              Scenario.uploaded_file Scenario.preview_url
              [ERemote (storage_createFile (VStr "bucket") (VStr "unique()")
                          (VObj [("name", VStr "cat.png")]))
                 (Gave (Ret Scenario.uploaded_file))]
              [ERemote (storage_getFilePreview (VStr "bucket") (VStr "file1")
                          2000 2000) (Gave (Ret Scenario.preview_url))]
              eq_refl eq_refl eq_refl eq_refl) as [_ Hrejected].
  apply (Hrejected Scenario.network_error). right. reflexivity.
Defined.

(** ** Editing a post *)

Section UpdatePostPlain.

Variable sdk : list event -> call -> reply.
Variable ID_unique : list event -> value.
Variable cfg : Config.

(** X4. Without a new file [updatePost] never touches the storage: its
    one SDK call is the document update, carrying the image URL and image
    id the post already had; the result is the updated document when that
    is truthy and undefined otherwise. *)
Theorem updatePost_without_file (post : IUpdatePost) (h : list event) :
  up_file post = [] ->
  let update :=
    databases_updateDocument (databasesId cfg) (postsCollectionId cfg)
      (VStr (up_postId post))
      (post_changes post (up_imageUrl post) (VStr (up_imageId post))) in
  let run := Backend.updatePost sdk ID_unique cfg post h in
  exists logs,
    snd run = ERemote update (sdk h update) :: logs
    /\ Forall (fun ev => ~ is_remote ev) logs
    /\ (forall updatedPost,
          sdk h update = Gave (Ret updatedPost) ->
          truthy updatedPost = true ->
          run = (Ret updatedPost, [ERemote update (sdk h update)]))
    /\ ((forall updatedPost,
           sdk h update = Gave (Ret updatedPost) ->
           truthy updatedPost = false) ->
        fst run = Ret VUndef).
Proof.
  intros Hnone update run. subst run update.
  unfold Backend.updatePost. rewrite Hnone.
  unfold post_changes. unfold_facade. cbn. rewrite ?app_nil_r.
  destruct (sdk h _) as [e | [updatedPost | e]] eqn:Hreply; cbn.
  - eexists. split; [reflexivity |]. split; [repeat constructor; tauto |].
    split; [discriminate | reflexivity].
  - destruct (truthy updatedPost) eqn:Htruthy; cbn;
      (eexists; split; [reflexivity |]; split;
       [repeat constructor; simpl; tauto |]); split.
    + intros v Hv _. injection Hv as <-. reflexivity.
    + intros Hfalsy. specialize (Hfalsy updatedPost eq_refl). congruence.
    + intros v Hv Hv'. injection Hv as <-. congruence.
    + reflexivity.
  - eexists. split; [reflexivity |]. split; [repeat constructor; tauto |].
    split; [discriminate | reflexivity].
Qed.

End UpdatePostPlain.

Lemma updatePost_without_file_witness :
  Backend.updatePost
    (Scenario.storage_ok (Gave (Ret Scenario.written_document)))
    Scenario.fresh_id Scenario.config
    (mkIUpdatePost "post1" "a cat" "file0" (VStr "https://old") []
       None (Some "cat"))
    []
  = (Ret Scenario.written_document,
     [ERemote
        (databases_updateDocument (VStr "db") (VStr "posts") (VStr "post1")
           (VObj [("caption", VStr "a cat");
                  ("imageUrl", VStr "https://old");
                  ("imageId", VStr "file0");
                  ("location", VUndef);
                  ("tags", VArr [VStr "cat"])]))
        (Gave (Ret Scenario.written_document))]).
Proof.
  destruct (updatePost_without_file
              (Scenario.storage_ok (Gave (Ret Scenario.written_document)))
              Scenario.fresh_id Scenario.config
              (mkIUpdatePost "post1" "a cat" "file0" (VStr "https://old") []
                 None (Some "cat"))
              [] eq_refl) as (logs & _ & _ & Hok & _).
  apply (Hok Scenario.written_document); reflexivity.
Defined.

Section UpdatePostFile.

Variable sdk : list event -> call -> reply.
Variable ID_unique : list event -> value.
Variable cfg : Config.

Variables (post : IUpdatePost) (h : list event).
Variables (file : value) (more : list value).
Variables (uploadedFile fileUrl : value) (uploaded previewed : list event).

Hypothesis Hfiles : up_file post = file :: more.
Hypothesis Hupload :
  Backend.uploadFile sdk ID_unique cfg file h = (Ret uploadedFile, uploaded).
Hypothesis Hfile : truthy uploadedFile = true.
Hypothesis Hpreview :
  Backend.getFilePreview sdk cfg (prop uploadedFile "$id") (h ++ uploaded)
  = (Ret fileUrl, previewed).
Hypothesis Hurl : truthy fileUrl = true.

Let ready := h ++ uploaded ++ previewed.
Let update :=
  databases_updateDocument (databasesId cfg) (postsCollectionId cfg)
    (VStr (up_postId post))
    (post_changes post fileUrl (prop uploadedFile "$id")).
Let delete_new := storage_deleteFile (storageId cfg) (prop uploadedFile "$id").
Let delete_old := storage_deleteFile (storageId cfg) (VStr (up_imageId post)).

(** [updatePost] once the new file is up and has a preview. *)
Lemma updatePost_after_preview :
  Backend.updatePost sdk ID_unique cfg post h
  = match sdk ready update with
    | Gave (Ret updatedPost) =>
        let written := ERemote update (Gave (Ret updatedPost)) in
        if truthy updatedPost
        then (Ret updatedPost,
              uploaded ++ previewed
              ++ written
                 :: snd (Backend.deleteFile sdk cfg (VStr (up_imageId post))
                           (ready ++ [written])))
        else (Ret VUndef,
              uploaded ++ previewed
              ++ written
                 :: snd (Backend.deleteFile sdk cfg (prop uploadedFile "$id")
                           (ready ++ [written]))
              ++ [EConsole "updatePost" (Error "Failed to update post")])
    | Threw e =>
        (Ret VUndef,
         uploaded ++ previewed
         ++ [ERemote update (Threw e); EConsole "updatePost" e])
    | Gave (Exn e) =>
        (Ret VUndef,
         uploaded ++ previewed
         ++ [ERemote update (Gave (Exn e)); EConsole "updatePost" e])
    end.
Proof.
  unfold Backend.updatePost, Backend.try_log, try_catch.
  rewrite Hfiles. cbn [List.length Nat.ltb Nat.leb nth].
  unfold bind at 1. unfold bind at 1. rewrite Hupload, Hfile. cbn [negb].
  unfold bind at 1. rewrite Hpreview, Hurl. cbn [negb ret fst snd].
  rewrite ?app_nil_r.
  unfold bind at 1. unfold Backend.request at 1. unfold bind at 1.
  unfold Backend.start. rewrite ?app_nil_r, <- ?app_assoc.
  fold ready. fold (post_changes post fileUrl (prop uploadedFile "$id")).
  fold update.
  destruct (sdk ready update) as [e | [updatedPost | e]]; cbn.
  - rewrite <- ?app_assoc; reflexivity.
  - destruct (truthy updatedPost); cbn.
    + unfold bind at 1. rewrite ?app_nil_r.
      destruct (deleteFile_trace sdk cfg (VStr (up_imageId post))
                  (ready ++ [ERemote update (Gave (Ret updatedPost))]))
        as (v & logs & Hdelete & _).
      cbv zeta in Hdelete. rewrite Hdelete. cbn.
      rewrite ?app_nil_r, <- ?app_assoc. cbn.
      rewrite ?app_nil_r, <- ?app_assoc. reflexivity.
    + unfold bind at 1. rewrite ?app_nil_r.
      destruct (deleteFile_trace sdk cfg (prop uploadedFile "$id")
                  (ready ++ [ERemote update (Gave (Ret updatedPost))]))
        as (v & logs & Hdelete & _).
      cbv zeta in Hdelete. rewrite Hdelete. cbn.
      rewrite ?app_nil_r, <- ?app_assoc. cbn.
      rewrite ?app_nil_r, <- ?app_assoc. reflexivity.
  - rewrite <- ?app_assoc; reflexivity.
Qed.

Lemma new_upload_and_preview_delete_nothing :
  Forall (fun ev => ~ deletes_file ev) (uploaded ++ previewed).
Proof.
  rewrite (uploadFile_truthy sdk ID_unique cfg _ _ _ _ Hupload Hfile).
  rewrite (getFilePreview_truthy sdk cfg _ _ _ _ Hpreview Hurl).
  repeat constructor; simpl; tauto.
Qed.

(** X5. With a new file uploaded and previewed, [updatePost] writes the
    changes with the new preview URL and the new file's id; when the
    update gives a truthy document it then requests the deletion of the
    file the post had before, requests nothing else, and returns the
    updated document whatever becomes of that deletion. *)
Theorem updatePost_replaces_file (updatedPost : value) :
  sdk ready update = Gave (Ret updatedPost) ->
  truthy updatedPost = true ->
  let written := ERemote update (Gave (Ret updatedPost)) in
  exists logs,
    Backend.updatePost sdk ID_unique cfg post h
    = (Ret updatedPost,
       uploaded ++ previewed
       ++ written
          :: ERemote delete_old (sdk (ready ++ [written]) delete_old)
          :: logs)
    /\ forall c r, ~ In (ERemote c r) logs.
Proof.
  intros Hwrite Htruthy written. subst written.
  rewrite updatePost_after_preview. rewrite Hwrite. cbv zeta.
  rewrite Htruthy.
  destruct (deleteFile_trace sdk cfg (VStr (up_imageId post))
              (ready ++ [ERemote update (Gave (Ret updatedPost))]))
    as (v & logs & Hdelete & Hlogs).
  cbv zeta in Hdelete. fold delete_old in Hdelete.
  exists logs. rewrite Hdelete. split; [reflexivity | exact Hlogs].
Qed.

(** X6. With a new file uploaded and previewed, an update fulfilled with
    a falsy value makes [updatePost] request the deletion of the new
    file, and of nothing else, log the failure and return undefined; an
    update that throws or is rejected is logged and gives undefined with
    no file deletion requested, so the new file stays in storage. *)
Theorem updatePost_failed_write :
  (forall updatedPost,
      sdk ready update = Gave (Ret updatedPost) ->
      truthy updatedPost = false ->
      let written := ERemote update (Gave (Ret updatedPost)) in
      exists logs,
        Backend.updatePost sdk ID_unique cfg post h
        = (Ret VUndef,
           uploaded ++ previewed
           ++ written
              :: ERemote delete_new (sdk (ready ++ [written]) delete_new)
              :: logs
           ++ [EConsole "updatePost" (Error "Failed to update post")])
        /\ forall c r, ~ In (ERemote c r) logs)
  /\ (forall e,
        failed_with (sdk ready update) e ->
        Backend.updatePost sdk ID_unique cfg post h
        = (Ret VUndef,
           uploaded ++ previewed
           ++ [ERemote update (sdk ready update); EConsole "updatePost" e])
        /\ Forall (fun ev => ~ deletes_file ev)
             (snd (Backend.updatePost sdk ID_unique cfg post h))).
Proof.
  split.
  - intros updatedPost Hwrite Hfalsy written. subst written.
    rewrite updatePost_after_preview. rewrite Hwrite. cbv zeta.
    rewrite Hfalsy.
    destruct (deleteFile_trace sdk cfg (prop uploadedFile "$id")
                (ready ++ [ERemote update (Gave (Ret updatedPost))]))
      as (v & logs & Hdelete & Hlogs).
    cbv zeta in Hdelete. fold delete_new in Hdelete.
    exists logs. rewrite Hdelete. split; [reflexivity | exact Hlogs].
  - intros e Hfailed. rewrite updatePost_after_preview.
    destruct Hfailed as [Hwrite | Hwrite]; rewrite Hwrite;
      (split; [reflexivity |]);
      simpl snd; rewrite app_assoc; apply Forall_app;
      (split; [apply new_upload_and_preview_delete_nothing |]);
      repeat constructor; simpl; tauto.
Qed.

End UpdatePostFile.

Lemma updatePost_replaces_file_witness :
  Backend.updatePost
    (Scenario.storage_ok (Gave (Ret Scenario.written_document)))
    Scenario.fresh_id Scenario.config Scenario.edited_post []
  = (Ret Scenario.written_document,
     [ERemote (storage_createFile (VStr "bucket") (VStr "unique()")
                 (VObj [("name", VStr "cat2.png")]))
        (Gave (Ret Scenario.uploaded_file));
      ERemote (storage_getFilePreview (VStr "bucket") (VStr "file1") 2000 2000)
        (Gave (Ret Scenario.preview_url));
      ERemote (databases_updateDocument (VStr "db") (VStr "posts")
                 (VStr "post1")
                 (VObj [("caption", VStr "a cat, again");
                        ("imageUrl", Scenario.preview_url);
                        ("imageId", VStr "file1");
                        ("location", VUndef);
                        ("tags", VArr [VStr "cat"])]))
        (Gave (Ret Scenario.written_document));
      ERemote (storage_deleteFile (VStr "bucket") (VStr "file0"))
        (Gave (Ret (VObj [])))]).
Proof.
  destruct (updatePost_replaces_file
              (Scenario.storage_ok (Gave (Ret Scenario.written_document)))
              Scenario.fresh_id Scenario.config Scenario.edited_post []
              (VObj [("name", VStr "cat2.png")]) []
              Scenario.uploaded_file Scenario.preview_url
              [ERemote (storage_createFile (VStr "bucket") (VStr "unique()")
                          (VObj [("name", VStr "cat2.png")]))
                 (Gave (Ret Scenario.uploaded_file))]
              [ERemote (storage_getFilePreview (VStr "bucket") (VStr "file1")
                          2000 2000) (Gave (Ret Scenario.preview_url))]
              eq_refl eq_refl eq_refl eq_refl eq_refl
              Scenario.written_document eq_refl eq_refl)
    as (logs & Hrun & _).
  rewrite Hrun. vm_compute in Hrun. injection Hrun as Hlogs.
  destruct logs as [| ev logs]; [reflexivity | discriminate Hlogs].
Defined.

Lemma updatePost_failed_write_witness :
  Backend.updatePost
    (Scenario.storage_ok (Gave (Exn Scenario.network_error)))
    Scenario.fresh_id Scenario.config Scenario.edited_post []
  = (Ret VUndef,
     [ERemote (storage_createFile (VStr "bucket") (VStr "unique()")
                 (VObj [("name", VStr "cat2.png")]))
        (Gave (Ret Scenario.uploaded_file));
      ERemote (storage_getFilePreview (VStr "bucket") (VStr "file1") 2000 2000)
        (Gave (Ret Scenario.preview_url));
      ERemote (databases_updateDocument (VStr "db") (VStr "posts")
                 (VStr "post1")
                 (post_changes Scenario.edited_post Scenario.preview_url
                    (VStr "file1")))
        (Gave (Exn Scenario.network_error));
      EConsole "updatePost" Scenario.network_error]).
Proof.
  destruct (updatePost_failed_write
              (Scenario.storage_ok (Gave (Exn Scenario.network_error)))
              Scenario.fresh_id Scenario.config Scenario.edited_post []
              (VObj [("name", VStr "cat2.png")]) []
              Scenario.uploaded_file Scenario.preview_url
              [ERemote (storage_createFile (VStr "bucket") (VStr "unique()")
                          (VObj [("name", VStr "cat2.png")]))
                 (Gave (Ret Scenario.uploaded_file))]
              [ERemote (storage_getFilePreview (VStr "bucket") (VStr "file1")
                          2000 2000) (Gave (Ret Scenario.preview_url))]
              eq_refl eq_refl eq_refl eq_refl eq_refl) as [_ Hrejected].
  apply (Hrejected Scenario.network_error). right. reflexivity.
Defined.

Section UpdatePostPreview.

Variable sdk : list event -> call -> reply.
Variable ID_unique : list event -> value.
Variable cfg : Config.

Lemma getFilePreview_updates_nothing (fileId : value) (h : list event) :
  Forall (fun ev => ~ updates_document ev)
    (snd (Backend.getFilePreview sdk cfg fileId h)).
Proof.
  clear ID_unique. unfold_facade. split_sdk sdk;
    repeat constructor; simpl; tauto.
Qed.

(** X7. When the new file of [updatePost] is uploaded but its preview
    retrieval gives a falsy value, the deletion of the uploaded file is
    requested next, the post document is never updated, the failure is
    logged and the result is undefined. *)
Theorem updatePost_preview_failure_deletes_upload
  (post : IUpdatePost) (h : list event) (file : value) (more : list value)
  (uploadedFile fileUrl : value) (uploaded previewed : list event) :
  up_file post = file :: more ->
  Backend.uploadFile sdk ID_unique cfg file h = (Ret uploadedFile, uploaded) ->
  truthy uploadedFile = true ->
  Backend.getFilePreview sdk cfg (prop uploadedFile "$id") (h ++ uploaded)
  = (Ret fileUrl, previewed) ->
  truthy fileUrl = false ->
  let deletion := storage_deleteFile (storageId cfg) (prop uploadedFile "$id") in
  exists logs,
    Backend.updatePost sdk ID_unique cfg post h
    = (Ret VUndef,
       uploaded ++ previewed
       ++ ERemote deletion (sdk (h ++ uploaded ++ previewed) deletion)
          :: logs
       ++ [EConsole "updatePost" (Error "Failed to get file preview")])
    /\ (forall c r, ~ In (ERemote c r) logs)
    /\ Forall (fun ev => ~ updates_document ev)
         (snd (Backend.updatePost sdk ID_unique cfg post h)).
Proof.
  intros Hfiles Hupload Hfile Hpreview Hfalsy deletion.
  destruct (deleteFile_trace sdk cfg (prop uploadedFile "$id")
              (h ++ uploaded ++ previewed)) as (v & logs & Hdelete & Hlogs).
  cbv zeta in Hdelete. fold deletion in Hdelete.
  assert (Hrun : Backend.updatePost sdk ID_unique cfg post h
                 = (Ret VUndef,
                    uploaded ++ previewed
                    ++ ERemote deletion
                         (sdk (h ++ uploaded ++ previewed) deletion) :: logs
                    ++ [EConsole "updatePost"
                          (Error "Failed to get file preview")])).
  { unfold Backend.updatePost, Backend.try_log, try_catch.
    rewrite Hfiles. cbn [List.length Nat.ltb Nat.leb nth].
    unfold bind at 1. unfold bind at 1. rewrite Hupload, Hfile. cbn [negb].
    unfold bind at 1. rewrite Hpreview, Hfalsy. cbn [negb].
    unfold bind at 1. rewrite <- app_assoc. rewrite Hdelete. cbn.
    rewrite ?app_nil_r, <- ?app_assoc. cbn.
    rewrite ?app_nil_r, <- ?app_assoc. reflexivity. }
  exists logs. split; [exact Hrun |]. split; [exact Hlogs |].
  rewrite Hrun. simpl snd.
  pose proof (getFilePreview_updates_nothing (prop uploadedFile "$id")
                (h ++ uploaded)) as Hp.
  rewrite Hpreview in Hp. simpl in Hp.
  rewrite (uploadFile_truthy sdk ID_unique cfg _ _ _ _ Hupload Hfile).
  apply Forall_app. split; [repeat constructor; simpl; tauto |].
  apply Forall_app. split; [exact Hp |].
  constructor; [simpl; tauto |].
  apply Forall_app. split.
  - apply Forall_forall. intros ev Hin Hw.
    destruct ev as [c r | | | | |]; try contradiction.
    exact (Hlogs c r Hin).
  - repeat constructor. simpl. tauto.
Qed.

End UpdatePostPreview.

Lemma updatePost_preview_failure_deletes_upload_witness :
  Backend.updatePost Scenario.no_preview Scenario.fresh_id Scenario.config
    Scenario.edited_post []
  = (Ret VUndef,
     [ERemote (storage_createFile (VStr "bucket") (VStr "unique()")
                 (VObj [("name", VStr "cat2.png")]))
        (Gave (Ret Scenario.uploaded_file));
      ERemote (storage_getFilePreview (VStr "bucket") (VStr "file1") 2000 2000)
        (Gave (Ret VUndef));
      EConsole "getFilePreview" (Error "Failed to get file preview");
      ERemote (storage_deleteFile (VStr "bucket") (VStr "file1"))
        (Gave (Ret (VObj [])));
      EConsole "updatePost" (Error "Failed to get file preview")]).
Proof.
  destruct (updatePost_preview_failure_deletes_upload
              Scenario.no_preview Scenario.fresh_id Scenario.config
              Scenario.edited_post [] (VObj [("name", VStr "cat2.png")]) []
              Scenario.uploaded_file VUndef
              [ERemote (storage_createFile (VStr "bucket") (VStr "unique()")
                          (VObj [("name", VStr "cat2.png")]))
                 (Gave (Ret Scenario.uploaded_file))]
              [ERemote (storage_getFilePreview (VStr "bucket") (VStr "file1")
                          2000 2000) (Gave (Ret VUndef));
               EConsole "getFilePreview" (Error "Failed to get file preview")]
              eq_refl eq_refl eq_refl eq_refl eq_refl)
    as (logs & Hrun & _ & _).
  rewrite Hrun. vm_compute in Hrun. injection Hrun as Hlogs.
  destruct logs as [| ev logs]; [reflexivity | exfalso].
  injection Hlogs as _ Hnil. symmetry in Hnil.
  apply app_eq_nil in Hnil. destruct Hnil as [_ Hnil]. discriminate Hnil.
Defined.

(** ** Editing a profile *)

Section UpdateUserFile.

Variable sdk : list event -> call -> reply.
Variable ID_unique : list event -> value.
Variable cfg : Config.

Variables (user : IUpdateUser) (h : list event).
Variables (file : value) (more : list value).
Variables (uploadedFile fileUrl : value) (uploaded previewed : list event).

Hypothesis Hfiles : uu_file user = file :: more.
Hypothesis Hupload :
  Backend.uploadFile sdk ID_unique cfg file h = (Ret uploadedFile, uploaded).
Hypothesis Hfile : truthy uploadedFile = true.
Hypothesis Hpreview :
  Backend.getFilePreview sdk cfg (prop uploadedFile "$id") (h ++ uploaded)
  = (Ret fileUrl, previewed).
Hypothesis Hurl : truthy fileUrl = true.

Let ready := h ++ uploaded ++ previewed.
Let update :=
  databases_updateDocument (databasesId cfg) (usersCollectionId cfg)
    (VStr (uu_userId user))
    (user_changes user fileUrl (prop uploadedFile "$id")).
Let delete_old := storage_deleteFile (storageId cfg) (VStr (uu_imageId user)).

(** X8. After a profile update with a new picture has been written,
    [updateUser] requests the deletion of the picture the user had before
    exactly when the user had one (a non-empty image id); either way it
    requests nothing else and returns the updated document. *)
Theorem updateUser_deletes_old_picture_if_any (updatedUser : value) :
  sdk ready update = Gave (Ret updatedUser) ->
  truthy updatedUser = true ->
  let written := ERemote update (Gave (Ret updatedUser)) in
  (uu_imageId user = "" ->
     Backend.updateUser sdk ID_unique cfg user h
     = (Ret updatedUser, uploaded ++ previewed ++ [written]))
  /\ (uu_imageId user <> "" ->
      exists logs,
        Backend.updateUser sdk ID_unique cfg user h
        = (Ret updatedUser,
           uploaded ++ previewed
           ++ written
              :: ERemote delete_old (sdk (ready ++ [written]) delete_old)
              :: logs)
        /\ forall c r, ~ In (ERemote c r) logs).
Proof.
  intros Hwrite Htruthy written. subst written.
  assert (Hrun :
            Backend.updateUser sdk ID_unique cfg user h
            = (let written := ERemote update (Gave (Ret updatedUser)) in
               if string_is_truthy (uu_imageId user)
               then (Ret updatedUser,
                     uploaded ++ previewed
                     ++ written
                        :: snd (Backend.deleteFile sdk cfg
                                  (VStr (uu_imageId user))
                                  (ready ++ [written])))
               else (Ret updatedUser, uploaded ++ previewed ++ [written]))).
  { unfold Backend.updateUser, Backend.try_log, try_catch.
    rewrite Hfiles. cbn [List.length Nat.ltb Nat.leb nth].
    unfold bind at 1. unfold bind at 1. rewrite Hupload, Hfile. cbn [negb].
    unfold bind at 1. rewrite Hpreview, Hurl. cbn [negb ret fst snd].
    rewrite ?app_nil_r.
    unfold bind at 1. unfold Backend.request at 1. unfold bind at 1.
    unfold Backend.start. rewrite ?app_nil_r, <- ?app_assoc.
    fold ready. fold (user_changes user fileUrl (prop uploadedFile "$id")).
    fold update. rewrite Hwrite. cbn. rewrite Htruthy. cbn.
    destruct (string_is_truthy (uu_imageId user)); cbn.
    - unfold bind at 1. rewrite ?app_nil_r.
      destruct (deleteFile_trace sdk cfg (VStr (uu_imageId user))
                  (ready ++ [ERemote update (Gave (Ret updatedUser))]))
        as (v & logs & Hdelete & _).
      cbv zeta in Hdelete. rewrite Hdelete. cbn.
      rewrite ?app_nil_r, <- ?app_assoc. cbn.
      rewrite ?app_nil_r, <- ?app_assoc. reflexivity.
    - rewrite ?app_nil_r, <- ?app_assoc. reflexivity. }
  rewrite Hrun. cbv zeta. unfold string_is_truthy. split.
  - intros ->. reflexivity.
  - intros Hid. apply String.eqb_neq in Hid. rewrite Hid. cbn [negb].
    destruct (deleteFile_trace sdk cfg (VStr (uu_imageId user))
                (ready ++ [ERemote update (Gave (Ret updatedUser))]))
      as (v & logs & Hdelete & Hlogs).
    cbv zeta in Hdelete. fold delete_old in Hdelete.
    exists logs. rewrite Hdelete. split; [reflexivity | exact Hlogs].
Qed.

End UpdateUserFile.

Lemma updateUser_deletes_old_picture_if_any_witness :
  Backend.updateUser
    (Scenario.storage_ok (Gave (Ret Scenario.written_document)))
    Scenario.fresh_id Scenario.config
    (mkIUpdateUser "user1" "Ada" "hello" "" (VStr "https://initials/ada")
       [VObj [("name", VStr "ada.png")]])
    []
  = (Ret Scenario.written_document,
     [ERemote (storage_createFile (VStr "bucket") (VStr "unique()")
                 (VObj [("name", VStr "ada.png")]))
        (Gave (Ret Scenario.uploaded_file));
      ERemote (storage_getFilePreview (VStr "bucket") (VStr "file1") 2000 2000)
        (Gave (Ret Scenario.preview_url));
      ERemote (databases_updateDocument (VStr "db") (VStr "users")
                 (VStr "user1")
                 (VObj [("name", VStr "Ada"); ("bio", VStr "hello");
                        ("imageUrl", Scenario.preview_url);
                        ("imageId", VStr "file1")]))
        (Gave (Ret Scenario.written_document))]).
Proof.
  destruct (updateUser_deletes_old_picture_if_any
              (Scenario.storage_ok (Gave (Ret Scenario.written_document)))
              Scenario.fresh_id Scenario.config
              (mkIUpdateUser "user1" "Ada" "hello" ""
                 (VStr "https://initials/ada")
                 [VObj [("name", VStr "ada.png")]])
              [] (VObj [("name", VStr "ada.png")]) []
              Scenario.uploaded_file Scenario.preview_url
              [ERemote (storage_createFile (VStr "bucket") (VStr "unique()")
                          (VObj [("name", VStr "ada.png")]))
                 (Gave (Ret Scenario.uploaded_file))]
              [ERemote (storage_getFilePreview (VStr "bucket") (VStr "file1")
                          2000 2000) (Gave (Ret Scenario.preview_url))]
              eq_refl eq_refl eq_refl eq_refl eq_refl
              Scenario.written_document eq_refl eq_refl)
    as [Hnone _].
  apply Hnone. reflexivity.
Defined.

(** ** Signing up and out *)

Section SignUp.

Variable sdk : list event -> call -> reply.
Variable ID_unique : list event -> value.
Variable cfg : Config.

Variables (user : INewUser) (h : list event).

Let create :=
  account_create (ID_unique h) (VStr (nu_email user))
    (VStr (nu_password user)) (VStr (nu_name user)).
Let initials := avatars_getInitials (VStr (nu_name user)).

(** X9. Once the account is created and the initials avatar obtained,
    [signUpAccount] writes one user document holding the account's id,
    email and name, the username of the form and the avatar; it returns
    whatever that write is fulfilled with, untested, and when the write
    is rejected it logs the error and returns the error itself. *)
Theorem signUpAccount_writes_user_document
  (newAccount avatarUrl : value) (written : outcome value) :
  sdk h create = Gave (Ret newAccount) ->
  truthy newAccount = true ->
  let created := ERemote create (Gave (Ret newAccount)) in
  sdk (h ++ [created]) initials = Gave (Ret avatarUrl) ->
  let drawn := ERemote initials (Gave (Ret avatarUrl)) in
  let write :=
    databases_createDocument (databasesId cfg) (usersCollectionId cfg)
      (ID_unique (h ++ [created; drawn]))
      (user_document_of user newAccount avatarUrl) in
  sdk (h ++ [created; drawn]) write = Gave written ->
  Backend.signUpAccount sdk ID_unique cfg user h
  = match written with
    | Ret newUser =>
        (Ret newUser, [created; drawn; ERemote write (Gave (Ret newUser))])
    | Exn e =>
        (Ret e, [created; drawn; ERemote write (Gave (Exn e));
                 EConsole "signUpAccount" e])
    end.
Proof.
  intros Hcreate Htruthy created Hdraw drawn write Hwrite.
  subst created drawn write. unfold user_document_of in *.
  unfold_facade. cbn. rewrite ?app_nil_r. fold create. rewrite Hcreate. cbn.
  rewrite Htruthy. cbn. fold initials. rewrite Hdraw. cbn.
  rewrite ?app_nil_r, <- ?app_assoc. cbn [app].
  rewrite Hwrite. destruct written; reflexivity.
Qed.

(** X10. When the account creation throws, is rejected or gives a falsy
    value, [signUpAccount] makes no further call: no avatar is asked for
    and no user document written; it logs the error and returns it (the
    SDK's error, or its own "New Account missing create"). *)
Theorem signUpAccount_stops_without_account :
  (forall newAccount,
      sdk h create = Gave (Ret newAccount) -> truthy newAccount = false) ->
  exists e,
    Backend.signUpAccount sdk ID_unique cfg user h
    = (Ret e, [ERemote create (sdk h create); EConsole "signUpAccount" e])
    /\ (forall e', failed_with (sdk h create) e' -> e = e')
    /\ (forall newAccount,
          sdk h create = Gave (Ret newAccount) ->
          e = Error "New Account missing create").
Proof.
  intros Hnone. unfold_facade. cbn. rewrite ?app_nil_r. fold create.
  destruct (sdk h create) as [e | [newAccount | e]] eqn:Hcreate; cbn.
  - exists e. split; [reflexivity |]. split.
    + intros e' [H | H]; congruence.
    + discriminate.
  - rewrite (Hnone newAccount eq_refl). cbn.
    eexists. split; [reflexivity |]. split.
    + intros e' [H | H]; discriminate H.
    + reflexivity.
  - exists e. split; [reflexivity |]. split.
    + intros e' [H | H]; congruence.
    + discriminate.
Qed.

End SignUp.

Lemma signUpAccount_writes_user_document_witness :
  Backend.signUpAccount
    (fun _ c =>
       match c with
       | account_create _ _ _ _ => Gave (Ret Scenario.account)
       | avatars_getInitials _ => Gave (Ret (VStr "https://initials/Ada"))
       | _ => Gave (Ret Scenario.user_document)
       end)
    Scenario.fresh_id Scenario.config Scenario.new_user []
  = (Ret Scenario.user_document,
     [ERemote (account_create (VStr "unique()") (VStr "ada@example.org")
                 (VStr "secret123") (VStr "Ada"))
        (Gave (Ret Scenario.account));
      ERemote (avatars_getInitials (VStr "Ada"))
        (Gave (Ret (VStr "https://initials/Ada")));
      ERemote (databases_createDocument (VStr "db") (VStr "users")
                 (VStr "unique()")
                 (VObj [("accountId", VStr "acc1");
                        ("email", VStr "ada@example.org");
                        ("name", VStr "Ada");
                        ("username", VStr "ada");
                        ("imageUrl", VStr "https://initials/Ada")]))
        (Gave (Ret Scenario.user_document))]).
Proof.
  apply (signUpAccount_writes_user_document _ Scenario.fresh_id
           Scenario.config Scenario.new_user [] Scenario.account
           (VStr "https://initials/Ada") (Ret Scenario.user_document)
           eq_refl eq_refl eq_refl eq_refl).
Defined.

Lemma signUpAccount_stops_without_account_witness :
  Backend.signUpAccount Scenario.offline Scenario.fresh_id Scenario.config
    Scenario.new_user []
  = (Ret Scenario.network_error,
     [ERemote (account_create (VStr "unique()") (VStr "ada@example.org")
                 (VStr "secret123") (VStr "Ada"))
        (Gave (Exn Scenario.network_error));
      EConsole "signUpAccount" Scenario.network_error]).
Proof.
  destruct (signUpAccount_stops_without_account Scenario.offline
              Scenario.fresh_id Scenario.config Scenario.new_user [])
    as (e & Hrun & Hfailed & _).
  - intros newAccount Hcreate. discriminate Hcreate.
  - rewrite Hrun.
    rewrite (Hfailed Scenario.network_error) by (right; reflexivity).
    reflexivity.
Defined.

Section Unawaited.

Variable sdk : list event -> call -> reply.
Variable ID_unique : list event -> value.
Variable cfg : Config.

(** X11. [saveUserToDB] and [signOutAccount] hand the SDK's promise
    back without awaiting it: whatever the promise settles to, a value or
    a rejection, is the outcome at the caller and nothing is logged; only
    a throw at the call itself is caught, logged and turned into
    undefined. *)
Theorem unawaited_promise_reaches_caller (user : value) (h : list event) :
  let write :=
    databases_createDocument (databasesId cfg) (usersCollectionId cfg)
      (ID_unique h) user in
  let leave := account_deleteSession (VStr "current") in
  (forall p, sdk h write = Gave p ->
             Backend.saveUserToDB sdk ID_unique cfg user h
             = (p, [ERemote write (Gave p)]))
  /\ (forall e, sdk h write = Threw e ->
                Backend.saveUserToDB sdk ID_unique cfg user h
                = (Ret VUndef,
                   [ERemote write (Threw e); EConsole "saveUserToDB" e]))
  /\ (forall p, sdk h leave = Gave p ->
                Backend.signOutAccount sdk h = (p, [ERemote leave (Gave p)]))
  /\ (forall e, sdk h leave = Threw e ->
                Backend.signOutAccount sdk h
                = (Ret VUndef,
                   [ERemote leave (Threw e); EConsole "signOutAccount" e])).
Proof.
  cbv zeta. unfold_facade. cbn. rewrite ?app_nil_r.
  repeat split; intros x Hreply; rewrite Hreply; cbn;
    try destruct x; reflexivity.
Qed.

End Unawaited.

Lemma unawaited_promise_reaches_caller_witness :
  Backend.signOutAccount Scenario.offline []
  = (Exn Scenario.network_error,
     [ERemote (account_deleteSession (VStr "current"))
        (Gave (Exn Scenario.network_error))]).
Proof.
  destruct (unawaited_promise_reaches_caller Scenario.offline
              Scenario.fresh_id Scenario.config VUndef [])
    as (_ & _ & Hleave & _).
  apply Hleave. reflexivity.
Defined.

(** ** Reading *)

(** X12. [getUsers] asks for the users newest first in one SDK call; the
    limit term is added exactly when a limit other than zero is given, so
    a limit of zero is sent as no limit at all. *)
Theorem getUsers_limit_only_when_truthy
  (sdk : list event -> call -> reply) (cfg : Config)
  (limit : option Z) (h : list event) :
  let queries := Backend.users_queries limit in
  (limit = None \/ limit = Some 0%Z ->
     queries = [Query_orderDesc "$createdAt"])
  /\ (forall n, limit = Some n -> n <> 0%Z ->
                queries = [Query_orderDesc "$createdAt"; Query_limit n])
  /\ (exists r rest,
        snd (Backend.getUsers sdk cfg limit h)
        = ERemote (databases_listDocuments (databasesId cfg)
                     (usersCollectionId cfg) queries) r :: rest
        /\ forall c r', ~ In (ERemote c r') rest).
Proof.
  cbv zeta. split; [| split].
  - intros [-> | ->]; reflexivity.
  - intros n -> Hn. unfold Backend.users_queries.
    apply Z.eqb_neq in Hn. now rewrite Hn.
  - unfold_facade. generalize (Backend.users_queries limit) as queries.
    intros queries. split_sdk sdk; eexists _, _;
      (split; [reflexivity |]); intros c r' Hin; simpl in Hin;
      repeat (destruct Hin as [Hin | Hin]; try discriminate Hin);
      exact Hin.
Qed.

Lemma getUsers_limit_only_when_truthy_witness :
  Backend.users_queries (Some 0%Z) = [Query_orderDesc "$createdAt"]
  /\ Backend.users_queries (Some 10%Z)
     = [Query_orderDesc "$createdAt"; Query_limit 10].
Proof.
  split.
  - apply (getUsers_limit_only_when_truthy Scenario.offline Scenario.config
             (Some 0%Z) []).
    now right.
  - apply (getUsers_limit_only_when_truthy Scenario.offline Scenario.config
             (Some 10%Z) [] ); [reflexivity | discriminate].
Defined.

(** X13. The reading operations ([getAccount], [getCurrentUser],
    [getFilePreview], [searchPosts], [getInfinitePosts], [getPostById],
    [getUserPosts], [getRecentPosts], [getUsers], [getUserById]) never
    ask the remote to create, change or delete anything, whatever the
    remote answers. *)
Theorem reading_never_mutates
  (sdk : list event -> call -> reply) (ID_unique : list event -> value)
  (cfg : Config) (op : operation) (h : list event) :
  read_only op = true ->
  forall c r,
    In (ERemote c r) (snd (invoke sdk ID_unique cfg op h)) ->
    mutating c = false.
Proof.
  intros Hread.
  destruct op; cbn [read_only] in Hread; try discriminate Hread;
    cbn [invoke]; unfold_facade; split_guards; split_sdk sdk;
    intros c r Hin; cbn [snd In] in Hin;
    repeat (destruct Hin as [Hin | Hin];
            [try discriminate Hin; inversion Hin; subst; reflexivity |]);
    contradiction.
Qed.

Lemma reading_never_mutates_witness :
  mutating (user_lookup Scenario.config Scenario.account) = false.
Proof.
  apply (reading_never_mutates (Scenario.signed_in [Scenario.user_document])
           Scenario.fresh_id Scenario.config op_getCurrentUser [] eq_refl
           (user_lookup Scenario.config Scenario.account)
           (Gave (Ret (Scenario.document_list [Scenario.user_document])))).
  vm_compute. tauto.
Defined.

Section CurrentUserResponse.

Variable sdk : list event -> call -> reply.
Variable cfg : Config.

Variables (h : list event) (account response : value).

Hypothesis Haccount : sdk h account_get = Gave (Ret account).
Hypothesis Hlive : truthy account = true.

Let fetched := ERemote account_get (Gave (Ret account)).
Let lookup := user_lookup cfg account.

Hypothesis Hresponse : sdk (h ++ [fetched]) lookup = Gave (Ret response).

(** X14. With a live account, [getCurrentUser] returns the first document
    of the answer to its lookup and ignores any further ones; an answer
    that is null or undefined, or has no documents list, is caught as a
    TypeError, logged, and gives null. *)
Theorem getCurrentUser_reads_first_document :
  (forall doc others,
      nullish response = false ->
      prop response "documents" = VArr (doc :: others) ->
      Backend.getCurrentUser sdk cfg h
      = (Ret doc, [fetched; ERemote lookup (Gave (Ret response))]))
  /\ (nullish response = true
      \/ nullish (prop response "documents") = true ->
      Backend.getCurrentUser sdk cfg h
      = (Ret VNull,
         [fetched; ERemote lookup (Gave (Ret response));
          EConsole "getCurrentUser" (TypeError "Cannot read properties")])).
Proof.
  split.
  - intros doc others Hnn Hdocs.
    exact (getCurrentUser_documents sdk cfg h account response
             (doc :: others) Haccount Hlive Hresponse Hnn Hdocs).
  - intros Hbad. unfold lookup, user_lookup in *. unfold_facade.
    rewrite Haccount. cbn. rewrite Hlive. cbn.
    fold fetched. rewrite Hresponse. cbn.
    destruct (nullish response) eqn:Hnn; cbn; [reflexivity |].
    destruct Hbad as [Hbad | Hbad]; [discriminate Hbad |].
    destruct (prop response "documents"); try discriminate Hbad;
      reflexivity.
Qed.

End CurrentUserResponse.

Lemma getCurrentUser_reads_first_document_witness :
  fst (Backend.getCurrentUser
         (Scenario.signed_in [Scenario.user_document; VObj []])
         Scenario.config [])
  = Ret Scenario.user_document.
Proof.
  destruct (getCurrentUser_reads_first_document
              (Scenario.signed_in [Scenario.user_document; VObj []])
              Scenario.config [] Scenario.account
              (Scenario.document_list [Scenario.user_document; VObj []])
              eq_refl eq_refl eq_refl) as [Hfirst _].
  rewrite (Hfirst Scenario.user_document [VObj []]); reflexivity.
Defined.

(** ** The like and save controls, further *)

Section LikeOthers.
Import PostStats.

Variable userId : string.

Let other (Id : string) : bool := negb (String.eqb Id userId).

Lemma filter_other_idempotent (l : list string) :
  filter other (filter other l) = filter other l.
Proof.
  induction l as [| y l IH]; simpl; [reflexivity |].
  destruct (other y) eqn:Hy; simpl; [rewrite Hy; now f_equal | exact IH].
Qed.

Lemma filter_other_length (l : list string) :
  List.length (filter other l) + count_occ string_dec l userId
  = List.length l.
Proof.
  induction l as [| y l IH]; simpl; [reflexivity |].
  unfold other at 1.
  destruct (string_dec y userId) as [-> | Hne].
  - rewrite String.eqb_refl. simpl. lia.
  - apply String.eqb_neq in Hne. rewrite Hne. simpl. lia.
Qed.

Lemma includes_likesArray_of (l : list string) :
  includes (likesArray_of userId l) userId = negb (includes l userId).
Proof.
  destruct (includes l userId) eqn:Hinc; simpl.
  - apply includes_false_not_In.
    apply includes_In in Hinc.
    rewrite likesArray_of_present by assumption.
    intros Hin. apply filter_other_In in Hin. tauto.
  - apply includes_In.
    apply includes_false_not_In in Hinc.
    rewrite likesArray_of_absent by assumption.
    apply in_or_app. right. now left.
Qed.

End LikeOthers.

(** X15. A click on the like icon leaves the likes of everybody else as
    they were: the other users' ids keep their order and their number of
    occurrences. *)
Theorem like_toggle_keeps_other_likes
  (postId userId : string) (st : PostStats.State) :
  let others := filter (fun Id => negb (String.eqb Id userId)) in
  others (PostStats.likes (fst (PostStats.handleLikePost postId userId st)))
  = others (PostStats.likes st)
  /\ PostStats.isSaved (fst (PostStats.handleLikePost postId userId st))
     = PostStats.isSaved st.
Proof.
  cbv zeta. split; [| reflexivity].
  change (PostStats.likes (fst (PostStats.handleLikePost postId userId st)))
    with (PostStats.likesArray_of userId (PostStats.likes st)).
  destruct (in_dec string_dec userId (PostStats.likes st)) as [Hin | Hn].
  - rewrite likesArray_of_present by assumption.
    apply filter_other_idempotent.
  - rewrite likesArray_of_absent by assumption.
    rewrite filter_app. simpl. rewrite String.eqb_refl. simpl.
    apply app_nil_r.
Qed.

(** X16. Every click flips whether the acting user's id is in the likes
    list, so after any number of clicks the post is liked exactly when the
    parity of the clicks says so. *)
Theorem like_clicks_parity
  (postId userId : string) (n : nat) (st : PostStats.State) :
  PostStats.includes
    (PostStats.likes (PostStats.like_clicks n postId userId st)) userId
  = PostStats.parity_flag n
      (PostStats.includes (PostStats.likes st) userId).
Proof.
  revert st. induction n as [| n IH]; intros st; [reflexivity |].
  change (PostStats.like_clicks (S n) postId userId st)
    with (PostStats.like_clicks n postId userId
            (fst (PostStats.handleLikePost postId userId st))).
  rewrite IH.
  change (PostStats.likes (fst (PostStats.handleLikePost postId userId st)))
    with (PostStats.likesArray_of userId (PostStats.likes st)).
  rewrite includes_likesArray_of.
  clear IH. induction n as [| n IHn]; simpl; [reflexivity |].
  now rewrite IHn.
Qed.

(** X17. The like count shown grows by one when the acting user was not
    in the list, and otherwise drops by the number of times the user
    occurred in it (by one when the list had no duplicate). *)
Theorem like_toggle_count
  (postId userId : string) (st : PostStats.State) :
  let before := PostStats.likes st in
  let after :=
    PostStats.likes (fst (PostStats.handleLikePost postId userId st)) in
  (~ In userId before -> List.length after = S (List.length before))
  /\ (In userId before ->
      List.length after + count_occ string_dec before userId
      = List.length before)
  /\ (In userId before -> NoDup before ->
      S (List.length after) = List.length before).
Proof.
  cbv zeta.
  change (PostStats.likes (fst (PostStats.handleLikePost postId userId st)))
    with (PostStats.likesArray_of userId (PostStats.likes st)).
  split; [| split].
  - intros Hn. rewrite likesArray_of_absent by assumption.
    rewrite length_app. simpl. lia.
  - intros Hin. rewrite likesArray_of_present by assumption.
    apply filter_other_length.
  - intros Hin Hnd. rewrite likesArray_of_present by assumption.
    pose proof (filter_other_length userId (PostStats.likes st)) as Hlen.
    rewrite (proj1 (NoDup_count_occ' string_dec (PostStats.likes st)) Hnd
               userId Hin) in Hlen.
    lia.
Qed.

Lemma like_toggle_count_witness :
  List.length
    (PostStats.likes
       (fst (PostStats.handleLikePost "post" "u"
               (PostStats.mkState ["a"; "u"; "b"] false))))
  = 2.
Proof.
  destruct (like_toggle_count "post" "u"
              (PostStats.mkState ["a"; "u"; "b"] false))
    as (_ & _ & Hdrop).
  assert (Hin : In "u" ["a"; "u"; "b"]) by (simpl; tauto).
  assert (Hnd : NoDup ["a"; "u"; "b"]).
  { repeat constructor; simpl; intros H;
      repeat (destruct H as [H | H]; try discriminate H); exact H. }
  apply eq_add_S. exact (Hdrop Hin Hnd).
Defined.

Section SavedLookup.
Import PostStats.

Variable postId : string.

Let matches (record : SaveRecord) : bool :=
  String.eqb (record_post_id record) postId.

Lemma find_first_match (records : list SaveRecord) :
  match find matches records with
  | Some r =>
      exists before after,
        records = before ++ r :: after
        /\ record_post_id r = postId
        /\ Forall (fun r' => record_post_id r' <> postId) before
  | None => Forall (fun r' => record_post_id r' <> postId) records
  end.
Proof.
  induction records as [| r records IH]; simpl; [constructor |].
  unfold matches at 1.
  destruct (String.eqb_spec (record_post_id r) postId) as [Heq | Hne].
  - exists [], records. repeat split; [exact Heq | constructor].
  - destruct (find matches records) as [r' |].
    + destruct IH as (before & after & -> & Hr' & Hbefore).
      exists (r :: before), after. repeat split; [exact Hr' |].
      constructor; assumption.
    + constructor; assumption.
Qed.

End SavedLookup.

(** X18. The save record looked up for a post is the first record of the
    current user's save list whose post is this post; none is found
    exactly when no record of the list is for this post, and none while
    the current user is not loaded. *)
Theorem savedPostRecord_first_match
  (currentUser : option PostStats.CurrentUser) (postId : string) :
  match currentUser, PostStats.savedPostRecord currentUser postId with
  | None, found => found = None
  | Some u, Some r =>
      exists before after,
        PostStats.save u = before ++ r :: after
        /\ PostStats.record_post_id r = postId
        /\ Forall (fun r' => PostStats.record_post_id r' <> postId) before
  | Some u, None =>
      Forall (fun r' => PostStats.record_post_id r' <> postId)
        (PostStats.save u)
  end.
Proof.
  destruct currentUser as [u |]; [| reflexivity].
  simpl. apply find_first_match.
Qed.

(** X19. A click on the save icon in a render whose flag was set from the
    lookup flips the flag and leaves the likes alone.  When the current
    user's list holds a save record of this post, the click asks for the
    deletion of the first such record, and for nothing else, and the flag
    becomes false; when the list holds none, or the current user is not
    loaded, it asks for one new save record of this user and post, and
    for nothing else, and the flag becomes true. *)
Theorem save_click_from_fresh_lookup
  (currentUser : option PostStats.CurrentUser) (postId userId : string)
  (st : PostStats.State) :
  let record := PostStats.savedPostRecord currentUser postId in
  let shown := PostStats.sync_isSaved record st in
  let clicked := PostStats.handleSavePost record postId userId shown in
  PostStats.isSaved (fst clicked) = negb (PostStats.isSaved shown)
  /\ PostStats.likes (fst clicked) = PostStats.likes st
  /\ (forall u,
        currentUser = Some u ->
        Exists (fun r' => PostStats.record_post_id r' = postId)
          (PostStats.save u) ->
        exists before r after,
          PostStats.save u = before ++ r :: after
          /\ PostStats.record_post_id r = postId
          /\ Forall (fun r' => PostStats.record_post_id r' <> postId) before
          /\ snd clicked = [PostStats.deleteSavePost (PostStats.record_id r)]
          /\ PostStats.isSaved (fst clicked) = false)
  /\ ((forall u,
         currentUser = Some u ->
         Forall (fun r' => PostStats.record_post_id r' <> postId)
           (PostStats.save u)) ->
      snd clicked = [PostStats.savePost userId postId]
      /\ PostStats.isSaved (fst clicked) = true)
  /\ (forall savedRecordId,
        In (PostStats.deleteSavePost savedRecordId) (snd clicked) ->
        exists u before r after,
          currentUser = Some u
          /\ PostStats.save u = before ++ r :: after
          /\ PostStats.record_id r = savedRecordId
          /\ PostStats.record_post_id r = postId
          /\ Forall (fun r' => PostStats.record_post_id r' <> postId) before)
  /\ (forall user post,
        In (PostStats.savePost user post) (snd clicked) ->
        user = userId /\ post = postId
        /\ forall u, currentUser = Some u ->
             Forall (fun r' => PostStats.record_post_id r' <> postId)
               (PostStats.save u)).
Proof.
  cbv zeta.
  destruct currentUser as [u |]; simpl.
  - pose proof (find_first_match postId (PostStats.save u)) as Hfound.
    cbv zeta in Hfound.
    destruct (find _ (PostStats.save u)) as [r |]; simpl.
    + destruct Hfound as (before & after & Hsave & Hpost & Hbefore).
      split; [reflexivity |]. split; [reflexivity |].
      split; [| split; [| split]].
      * intros u' Hu' _. injection Hu' as <-.
        exists before, r, after. repeat split; assumption.
      * intros Hnone. specialize (Hnone u eq_refl).
        rewrite Hsave in Hnone. apply Forall_app in Hnone.
        destruct Hnone as [_ Hnone]. inversion Hnone as [| ? ? Hr _].
        contradiction.
      * intros savedRecordId [H | []]. injection H as <-.
        exists u, before, r, after. repeat split; assumption.
      * intros user post [H | []]. discriminate H.
    + split; [reflexivity |]. split; [reflexivity |].
      split; [| split; [| split]].
      * intros u' Hu' Hsome. injection Hu' as <-.
        apply Exists_exists in Hsome. destruct Hsome as (r' & Hin & Hr').
        rewrite Forall_forall in Hfound. now destruct (Hfound r' Hin).
      * intros _. split; reflexivity.
      * intros savedRecordId [H | []]. discriminate H.
      * intros user post [H | []]. injection H as <- <-.
        split; [reflexivity |]. split; [reflexivity |].
        intros u' Hu'. injection Hu' as <-. exact Hfound.
  - split; [reflexivity |]. split; [reflexivity |].
    split; [| split; [| split]].
    + intros u' Hu'. discriminate Hu'.
    + intros _. split; reflexivity.
    + intros savedRecordId [H | []]. discriminate H.
    + intros user post [H | []]. injection H as <- <-.
      split; [reflexivity |]. split; [reflexivity |].
      intros u' Hu'. discriminate Hu'.
Qed.

Lemma save_click_from_fresh_lookup_witness :
  (exists before r after,
      [PostStats.mkSaveRecord "save1" "post2";
       PostStats.mkSaveRecord "save2" "post1";
       PostStats.mkSaveRecord "save3" "post1"] = before ++ r :: after
      /\ PostStats.record_post_id r = "post1"
      /\ Forall (fun r' => PostStats.record_post_id r' <> "post1") before
      /\ snd (PostStats.handleSavePost
                (PostStats.savedPostRecord
                   (Some (PostStats.mkCurrentUser
                            [PostStats.mkSaveRecord "save1" "post2";
                             PostStats.mkSaveRecord "save2" "post1";
                             PostStats.mkSaveRecord "save3" "post1"]))
                   "post1")
                "post1" "user1"
                (PostStats.sync_isSaved
                   (PostStats.savedPostRecord
                      (Some (PostStats.mkCurrentUser
                               [PostStats.mkSaveRecord "save1" "post2";
                                PostStats.mkSaveRecord "save2" "post1";
                                PostStats.mkSaveRecord "save3" "post1"]))
                      "post1")
                   Scenario.fresh_controls))
         = [PostStats.deleteSavePost (PostStats.record_id r)]
      /\ PostStats.record_id r = "save2")
  /\ snd (PostStats.handleSavePost
            (PostStats.savedPostRecord None "post1") "post1" "user1"
            (PostStats.sync_isSaved
               (PostStats.savedPostRecord None "post1")
               Scenario.fresh_controls))
     = [PostStats.savePost "user1" "post1"].
Proof.
  split.
  - destruct (save_click_from_fresh_lookup
                (Some (PostStats.mkCurrentUser
                         [PostStats.mkSaveRecord "save1" "post2";
                          PostStats.mkSaveRecord "save2" "post1";
                          PostStats.mkSaveRecord "save3" "post1"]))
                "post1" "user1" Scenario.fresh_controls)
      as (_ & _ & Hdelete & _).
    destruct (Hdelete _ eq_refl)
      as (before & r & after & Hsave & Hpost & Hbefore & Hfired & _).
    { apply Exists_cons_tl. apply Exists_cons_hd. reflexivity. }
    exists before, r, after.
    split; [exact Hsave |]. split; [exact Hpost |].
    split; [exact Hbefore |]. split; [exact Hfired |].
    simpl in Hfired. injection Hfired as Hid. symmetry. exact Hid.
  - destruct (save_click_from_fresh_lookup None "post1" "user1"
                Scenario.fresh_controls) as (_ & _ & _ & Hsave & _).
    apply Hsave. intros u Hu. discriminate Hu.
Defined.

(** ** Signing out from the side bar *)

(** X20. The side bar's sign-out handler first fires the sign-out
    mutation, once and without waiting for it, then clears the session in
    the store and navigates to /sign-in: whatever the store held, the user
    is the initial user and [isAuthenticated] is false afterwards, and a
    store filled by any run of [checkAuthUser] from its initial state is
    back at its initial state. *)
Theorem handleSignOut_clears_session
  (sdk : list event -> call -> reply) (cfg : Config)
  (h : list event) (s : AuthProvider.Store) :
  let left := NavBar.events_of NavBar.handleSignOut in
  let after := AuthProvider.apply_events s left in
  (exists rest,
      NavBar.handleSignOut = NavBar.signOut :: rest
      /\ ~ In NavBar.signOut rest
      /\ left = NavBar.events_of rest)
  /\ AuthProvider.user after = AuthProvider.INITIAL_USER
  /\ AuthProvider.isAuthenticated after = false
  /\ AuthProvider.isLoading after = AuthProvider.isLoading s
  /\ (forall path, In (ENavigate path) left <-> path = "/sign-in")
  /\ AuthProvider.apply_events AuthProvider.initial_store
       (snd (AuthProvider.checkAuthUser sdk cfg h) ++ left)
     = AuthProvider.initial_store.
Proof.
  cbv zeta. split.
  { eexists. split; [reflexivity |]. split; [| reflexivity].
    intros [H | [H | [H | []]]]; discriminate H. }
  split; [reflexivity |]. split; [reflexivity |].
  split; [reflexivity |]. split.
  - intros path. simpl. split.
    + intros [H | [H | [H | []]]]; try discriminate H. now injection H.
    + intros ->. tauto.
  - destruct (getCurrentUser_returns sdk cfg (h ++ [ESetIsLoading true]))
      as (v & fetched & Hget).
    pose proof (getCurrentUser_inert sdk cfg (h ++ [ESetIsLoading true]))
      as Hinert.
    rewrite Hget in Hinert. simpl in Hinert.
    rewrite (checkAuthUser_trace sdk cfg h v fetched Hget). simpl snd.
    change (ESetIsLoading true :: ?l) with ([ESetIsLoading true] ++ l).
    rewrite !apply_events_app, (apply_events_inert fetched) by assumption.
    destruct (truthy v); reflexivity.
Qed.

Lemma handleSignOut_clears_session_witness :
  In NavBar.signOut NavBar.handleSignOut
  /\ In (ENavigate "/sign-in") (NavBar.events_of NavBar.handleSignOut)
  /\ AuthProvider.apply_events AuthProvider.initial_store
       (snd (AuthProvider.checkAuthUser
               (Scenario.signed_in [Scenario.user_document])
               Scenario.config [])
        ++ NavBar.events_of NavBar.handleSignOut)
     = AuthProvider.initial_store.
Proof.
  destruct (handleSignOut_clears_session
              (Scenario.signed_in [Scenario.user_document]) Scenario.config
              [] AuthProvider.initial_store)
    as ((rest & Hfire & _) & _ & _ & _ & Hnav & Hback).
  split; [rewrite Hfire; now left |].
  split; [apply Hnav; reflexivity | exact Hback].
Defined.

(** ** The saved-posts page *)

Section SavedPage.
Import SavedPosts.

Lemma assoc_set_field_same (k : string) (v : value)
  (fields : list (string * value)) :
  assoc k (set_field k v fields) = v.
Proof.
  induction fields as [| [k' v'] fields IH]; simpl.
  - now rewrite String.eqb_refl.
  - destruct (String.eqb k k') eqn:Hk; simpl; rewrite Hk;
      [reflexivity | exact IH].
Qed.

Lemma assoc_set_field_other (k k0 : string) (v : value)
  (fields : list (string * value)) :
  k0 <> k -> assoc k0 (set_field k v fields) = assoc k0 fields.
Proof.
  intros Hne. induction fields as [| [k' v'] fields IH]; simpl.
  - apply String.eqb_neq in Hne. now rewrite Hne.
  - destruct (String.eqb_spec k k') as [<- | Hk]; simpl.
    + apply String.eqb_neq in Hne. now rewrite Hne.
    + destruct (String.eqb k0 k'); [reflexivity | exact IH].
Qed.

End SavedPage.

(** X21. The saved-posts page shows the loader until the current user is
    loaded and the empty message when the user has no save record;
    otherwise it lists one post per save record, the last saved first,
    each being the saved post with its creator replaced by the current
    user's picture and every other field kept. *)
Theorem saved_posts_page
  (currentUser : option SavedPosts.CurrentUser) :
  match currentUser with
  | None => SavedPosts.render currentUser = SavedPosts.Loader
  | Some u =>
      let records := SavedPosts.save u in
      (records = [] ->
         SavedPosts.render currentUser = SavedPosts.NoAvailablePosts)
      /\ (records <> [] ->
          exists posts,
            SavedPosts.render currentUser = SavedPosts.GridPostsList posts
            /\ List.length posts = List.length records
            /\ forall i, i < List.length records ->
                 nth i posts VUndef
                 = SavedPosts.with_creator u
                     (nth (List.length records - S i) records
                        (SavedPosts.mkSaveDocument None)))
      /\ (forall savePost,
            prop (SavedPosts.with_creator u savePost) "creator"
            = VObj [("imageUrl", SavedPosts.imageUrl u)]
            /\ forall k, k <> "creator" ->
                 prop (SavedPosts.with_creator u savePost) k
                 = match SavedPosts.post savePost with
                   | Some fields => assoc k fields
                   | None => VUndef
                   end)
  end.
Proof.
  destruct currentUser as [u |]; [| reflexivity].
  cbv zeta. split; [| split].
  - intros Hnone. unfold SavedPosts.render, SavedPosts.savePosts.
    now rewrite Hnone.
  - intros Hsome. unfold SavedPosts.render, SavedPosts.savePosts.
    exists (rev (map (SavedPosts.with_creator u) (SavedPosts.save u))).
    assert (Hlen : List.length
                     (rev (map (SavedPosts.with_creator u)
                             (SavedPosts.save u)))
                   = List.length (SavedPosts.save u))
      by (now rewrite length_rev, length_map).
    split; [| split; [exact Hlen |]].
    + rewrite Hlen. destruct (SavedPosts.save u); [contradiction | reflexivity].
    + intros i Hi. rewrite rev_nth by (rewrite length_map; exact Hi).
      rewrite length_map.
      rewrite (nth_indep _ VUndef
                 (SavedPosts.with_creator u (SavedPosts.mkSaveDocument None)))
        by (rewrite length_map; lia).
      apply map_nth.
  - intros savePost. unfold SavedPosts.with_creator. simpl. split.
    + apply assoc_set_field_same.
    + intros k Hk. rewrite assoc_set_field_other by assumption.
      destruct (SavedPosts.post savePost); reflexivity.
Qed.

Lemma saved_posts_page_witness :
  SavedPosts.render
    (Some (SavedPosts.mkCurrentUser (VStr "https://img/ada")
             [SavedPosts.mkSaveDocument
                (Some [("$id", VStr "post1");
                       ("creator", VStr "user2")]);
              SavedPosts.mkSaveDocument (Some [("$id", VStr "post2")])]))
  = SavedPosts.GridPostsList
      [VObj [("$id", VStr "post2");
             ("creator", VObj [("imageUrl", VStr "https://img/ada")])];
       VObj [("$id", VStr "post1");
             ("creator", VObj [("imageUrl", VStr "https://img/ada")])]].
Proof.
  destruct (saved_posts_page
              (Some (SavedPosts.mkCurrentUser (VStr "https://img/ada")
                       [SavedPosts.mkSaveDocument
                          (Some [("$id", VStr "post1");
                                 ("creator", VStr "user2")]);
                        SavedPosts.mkSaveDocument
                          (Some [("$id", VStr "post2")])])))
    as (_ & Hlist & _).
  destruct Hlist as (posts & Hrender & _ & _); [discriminate |].
  rewrite Hrender. vm_compute in Hrender. injection Hrender as <-.
  reflexivity.
Defined.

(** ** The navigation links *)

(** X22. Whatever the current path, at most one navigation link is
    marked active, and one is exactly when the path is the route of a
    link; every link leads to a route that is rendered in the
    authenticated layout. *)
Theorem nav_links_one_active (pathname : string) :
  let active := filter (NavBar.isActive pathname) NavBar.Links in
  List.length active <= 1
  /\ (List.length active = 1
      <-> In pathname (map NavBar.route NavBar.Links))
  /\ Forall (fun link =>
               exists r, route_path r = NavBar.route link
                         /\ Routing.layout_of r = Routing.RootLayoutL)
       NavBar.Links.
Proof.
  cbv zeta. split; [| split].
  - unfold NavBar.Links, NavBar.isActive. simpl.
    repeat match goal with
           | |- context [String.eqb pathname ?s] =>
               destruct (String.eqb_spec pathname s) as [-> | ?];
               simpl; try lia
           end.
  - unfold NavBar.Links, NavBar.isActive. simpl.
    repeat match goal with
           | |- context [String.eqb pathname ?s] =>
               destruct (String.eqb_spec pathname s) as [-> | ?];
               simpl; try (split; [tauto | reflexivity])
           end.
    split; [discriminate |].
    intros [H | [H | [H | [H | [H | []]]]]]; congruence.
  - repeat constructor.
    + now exists Routing.home.
    + now exists Routing.explore.
    + now exists Routing.users_community.
    + now exists Routing.saved.
    + now exists Routing.create_post.
Qed.

Lemma nav_links_one_active_witness :
  List.length (filter (NavBar.isActive "/saved") NavBar.Links) = 1
  /\ ~ List.length (filter (NavBar.isActive "/posts/1") NavBar.Links) = 1.
Proof.
  destruct (nav_links_one_active "/saved") as (_ & Hsaved & _).
  destruct (nav_links_one_active "/posts/1") as (_ & Hpost & _).
  split.
  - apply Hsaved. simpl. tauto.
  - intros Hone. apply Hpost in Hone. simpl in Hone.
    repeat (destruct Hone as [Hone | Hone]; try discriminate Hone).
    exact Hone.
Defined.
